(** * Prescription verification backend: interaction and dosage endpoints

    A shallow embedding of [backend/helpers.py] and [backend/main.py]:
    the keyword risk summarizer, the RxNorm lookups over decoded JSON
    bodies, the pandas reference table, and the two FastAPI endpoints
    [check_interactions] and [dosage_alternatives].

    Conventions.
    - Python values that travel between the functions (decoded JSON,
      table cells, identifiers) are values of [pyval].
    - A Python call either returns or raises: [result A].
    - Calls to [print] only write to the log and are left out.
    - Strings are byte strings.  [lower] lower-cases the ASCII letters
      and keeps every other byte, which is [str.lower] on ASCII text;
      the summarizer is also given over an arbitrary lower-casing
      function. *)

From Stdlib Require Import String Ascii List Bool ZArith Lia Arith Sorted.
Import ListNotations.
Open Scope string_scope.

Set Implicit Arguments.

(* ================================================================= *)
(** ** Strings: [str.lower] and the [in] operator *)

Definition lower_ascii (c : ascii) : ascii :=
  let n := nat_of_ascii c in
  if (65 <=? n)%nat && (n <=? 90)%nat then ascii_of_nat (n + 32) else c.

Fixpoint lower (s : string) : string :=
  match s with
  | EmptyString => EmptyString
  | String c r => String (lower_ascii c) (lower r)
  end.

(** [starts needle hay]: [hay.startswith(needle)]. *)
Fixpoint starts (needle hay : string) : bool :=
  match needle, hay with
  | EmptyString, _ => true
  | String a n, String b h => Ascii.eqb a b && starts n h
  | String _ _, EmptyString => false
  end.

(** [str_in needle hay]: the Python expression [needle in hay] on two
    strings. *)
Fixpoint str_in (needle hay : string) : bool :=
  starts needle hay ||
  match hay with
  | EmptyString => false
  | String _ h => str_in needle h
  end.

(* ================================================================= *)
(** ** Exceptions and results *)

Inductive exn : Type :=
| KeyError (key : string)
| IndexError
| TypeError
| AttributeError
| RequestException
| FileNotFoundError
| EmptyDataError
| HTTPException (status_code : Z) (detail : string).

Inductive result (A : Type) : Type :=
| Ok (a : A)
| Raise (e : exn).

Arguments Ok {A} a.
Arguments Raise {A} e.

Definition bind {A B} (r : result A) (k : A -> result B) : result B :=
  match r with
  | Ok a => k a
  | Raise e => Raise e
  end.

Notation "x <- r ;; k" := (bind r (fun x => k))
  (at level 61, r at next level, right associativity).

(** [for x in xs: ys.append(f(x))], stopping at the first exception. *)
Fixpoint mapM {A B} (f : A -> result B) (xs : list A) : result (list B) :=
  match xs with
  | [] => Ok []
  | x :: r => y <- f x ;; ys <- mapM f r ;; Ok (y :: ys)
  end.

(* ================================================================= *)
(** ** Risk summarizer ([helpers.get_ibm_granite_alerts]) *)

Definition SEVERE_ALERT : string :=
  "❗️ Severe interaction detected. Immediate consultation advised.".
Definition HIGH_RISK_ALERT : string :=
  "⚠️ High-risk interaction detected. Use with caution.".
Definition NO_RISK_ALERT : string :=
  "✅ No severe interaction risk detected. Monitor patient as usual.".

(** The function body, with [text.lower()] computed by [str_lower]. *)
Definition get_ibm_granite_alerts_with (str_lower : string -> string)
           (text : string) : string :=
  let text_lower := str_lower text in
  if str_in "increase" text_lower || str_in "risk" text_lower
     || str_in "harmful" text_lower || str_in "severe" text_lower
  then SEVERE_ALERT
  else if str_in "decrease" text_lower || str_in "monitor" text_lower
          || str_in "caution" text_lower
  then HIGH_RISK_ALERT
  else NO_RISK_ALERT.

(** The summarizer under the ASCII lower-casing [lower]. *)
Definition get_ibm_granite_alerts (text : string) : string :=
  get_ibm_granite_alerts_with lower text.

(* ================================================================= *)
(** ** Python values

    Decoded JSON bodies, table cells and identifiers.  Numbers are
    integers; a missing table cell is [PNone].  A decoded JSON object is
    an association list with distinct keys, in document order. *)

#[warnings="-register-all"]
Inductive pyval : Type :=
| PNone
| PBool (b : bool)
| PInt (z : Z)
| PStr (s : string)
| PList (l : list pyval)
| PDict (kv : list (string * pyval)).

(** [bool(v)], as used by [if rxcui:] and [if not ingredient_rxcui:]. *)
Definition truthy (v : pyval) : bool :=
  match v with
  | PNone => false
  | PBool b => b
  | PInt z => negb (z =? 0)%Z
  | PStr s => negb (String.eqb s "")
  | PList l => match l with [] => false | _ => true end
  | PDict kv => match kv with [] => false | _ => true end
  end.

(** [v is not None]. *)
Definition is_not_None (v : pyval) : bool :=
  match v with PNone => false | _ => true end.

Fixpoint assoc {V} (k : string) (kv : list (string * V)) : option V :=
  match kv with
  | [] => None
  | (k', v) :: r => if String.eqb k' k then Some v else assoc k r
  end.

Fixpoint chars (s : string) : list pyval :=
  match s with
  | EmptyString => []
  | String c r => PStr (String c EmptyString) :: chars r
  end.

(** [k in v] for a string literal [k]: key membership in a dict, element
    membership in a list, substring test in a string, [TypeError] on
    anything that is not a container. *)
Definition py_in (k : string) (v : pyval) : result bool :=
  match v with
  | PDict kv => Ok (match assoc k kv with Some _ => true | None => false end)
  | PList l =>
      Ok (existsb (fun x => match x with PStr s => String.eqb s k | _ => false end) l)
  | PStr s => Ok (str_in k s)
  | _ => Raise TypeError
  end.

(** [v[k]] for a string literal [k]. *)
Definition py_getitem (v : pyval) (k : string) : result pyval :=
  match v with
  | PDict kv => match assoc k kv with Some x => Ok x | None => Raise (KeyError k) end
  | _ => Raise TypeError
  end.

(** [v[0]]. *)
Definition py_getitem0 (v : pyval) : result pyval :=
  match v with
  | PList (x :: _) => Ok x
  | PList [] => Raise IndexError
  | PStr (String c _) => Ok (PStr (String c EmptyString))
  | PStr EmptyString => Raise IndexError
  | PDict _ => Raise (KeyError "0")
  | _ => Raise TypeError
  end.

(** The elements visited by [for x in v]. *)
Definition py_iter (v : pyval) : result (list pyval) :=
  match v with
  | PList l => Ok l
  | PDict kv => Ok (map (fun p => PStr (fst p)) kv)
  | PStr s => Ok (chars s)
  | _ => Raise TypeError
  end.

(* ================================================================= *)
(** ** The RxNorm service as seen through [requests]

    A request is identified by its endpoint and parameters; the service
    answers each request with one [response] for the duration of an
    endpoint call. *)

Inductive request : Type :=
| RxcuiByName (name : string)
| Related (rxcui : pyval) (tty : string).

Inductive response : Type :=
| ConnectionFailed
| BadStatus
| UndecodableBody
| Body (data : pyval).

Definition network : Type := request -> response.

(** [requests.get(url, params)], [response.raise_for_status()],
    [response.json()].  Each failure raises a subclass of
    [requests.RequestException] ([ConnectionError], [HTTPError], and
    [JSONDecodeError] as of requests 2.27). *)
Definition fetch (net : network) (r : request) : result pyval :=
  match net r with
  | ConnectionFailed => Raise RequestException
  | BadStatus => Raise RequestException
  | UndecodableBody => Raise RequestException
  | Body data => Ok data
  end.

(** [try: body  except requests.RequestException: handler]. *)
Definition try_except_request {A} (body : result A) (handler : result A) : result A :=
  match body with
  | Raise RequestException => handler
  | r => r
  end.

(** [helpers.get_rxcui]; Python [None] is [PNone]. *)
Definition get_rxcui (net : network) (drug_name : string) : result pyval :=
  try_except_request
    (data <- fetch net (RxcuiByName drug_name) ;;
     has_group <- py_in "idGroup" data ;;
     has_id <- (if has_group
                then g <- py_getitem data "idGroup" ;; py_in "rxnormId" g
                else Ok false) ;;
     if has_id
     then g <- py_getitem data "idGroup" ;;
          ids <- py_getitem g "rxnormId" ;;
          py_getitem0 ids
     else Ok PNone)
    (Ok PNone).

(** The test ['relatedGroup' in data and 'conceptGroup' in data['relatedGroup']]. *)
Definition has_concept_group (data : pyval) : result bool :=
  has_rel <- py_in "relatedGroup" data ;;
  if has_rel
  then g <- py_getitem data "relatedGroup" ;; py_in "conceptGroup" g
  else Ok false.

(** [data['relatedGroup']['conceptGroup'][0]['conceptProperties']]. *)
Definition concept_properties (data : pyval) : result pyval :=
  g <- py_getitem data "relatedGroup" ;;
  cg <- py_getitem g "conceptGroup" ;;
  c0 <- py_getitem0 cg ;;
  py_getitem c0 "conceptProperties".

(** [[concept['name'] for concept in props]]. *)
Definition concept_names (props : pyval) : result (list pyval) :=
  cs <- py_iter props ;;
  mapM (fun concept => py_getitem concept "name") cs.

(** [helpers.get_dosage_forms]. *)
Definition get_dosage_forms (net : network) (rxcui : pyval) : result (list pyval) :=
  try_except_request
    (data <- fetch net (Related rxcui "SCD") ;;
     c <- has_concept_group data ;;
     if c
     then props <- concept_properties data ;; concept_names props
     else Ok [])
    (Ok []).

(** [helpers.get_alternatives]. *)
Definition get_alternatives (net : network) (rxcui : pyval) : result (list pyval) :=
  ingredient <-
    try_except_request
      (data <- fetch net (Related rxcui "IN") ;;
       c <- has_concept_group data ;;
       if c
       then props <- concept_properties data ;;
            p0 <- py_getitem0 props ;;
            i <- py_getitem p0 "rxcui" ;;
            Ok (Some i)
       else Ok (Some PNone))
      (Ok None) ;;
  match ingredient with
  | None => Ok []
  | Some ingredient_rxcui =>
      if negb (truthy ingredient_rxcui) then Ok []
      else
        try_except_request
          (data <- fetch net (Related ingredient_rxcui "SBD") ;;
           c <- has_concept_group data ;;
           if c
           then props <- concept_properties data ;; concept_names props
           else Ok [])
          (Ok [])
  end.

(** [helpers.query_hugging_face_ner] as it stands: the fixed list. *)
Definition query_hugging_face_ner (text : string) : list string :=
  ["Paracetamol"; "Warfarin"].

(* ================================================================= *)
(** ** The reference table ([pandas.DataFrame])

    A frame is its column labels and its rows, each row listing its
    cells in column order.  [pd.DataFrame()] has no columns and no
    rows. *)

Record DataFrame : Type := {
  columns : list string;
  rows : list (list pyval)
}.

Definition empty_DataFrame : DataFrame := {| columns := []; rows := [] |}.

(** [helpers.load_ddi_dataset], given what [pd.read_csv(file_path)] does. *)
Definition load_ddi_dataset (read_csv : result DataFrame) : result DataFrame :=
  match read_csv with
  | Raise FileNotFoundError => Ok empty_DataFrame
  | r => r
  end.

Fixpoint index_of (c : string) (cols : list string) : option nat :=
  match cols with
  | [] => None
  | c' :: r => if String.eqb c' c then Some 0%nat
               else option_map S (index_of c r)
  end.

Definition cell (i : nat) (row : list pyval) : pyval := nth i row PNone.

(** [df[c]]: the column as a series, [KeyError] when [c] is no label. *)
Definition column (df : DataFrame) (c : string) : result (list pyval) :=
  match index_of c (columns df) with
  | Some i => Ok (map (cell i) (rows df))
  | None => Raise (KeyError c)
  end.

(** [row[c]] for a row produced by [iterrows]. *)
Definition row_get (cols : list string) (row : list pyval) (c : string) : result pyval :=
  match index_of c cols with
  | Some i => Ok (cell i row)
  | None => Raise (KeyError c)
  end.

(** The identifier is a string, a number or a boolean. *)
Definition is_scalar (v : pyval) : bool :=
  match v with
  | PBool _ | PInt _ | PStr _ => true
  | _ => false
  end.

(** One cell of [series == scalar] for a scalar identifier (a string or
    a number, as RxNorm lists them): equality of scalars as Python has
    it; a missing cell equals nothing.  Against a list pandas compares
    position by position or raises [ValueError]; that comparison is not
    covered, and the statements that depend on the outcome of a
    comparison take scalar identifiers. *)
Definition cell_eq (c v : pyval) : bool :=
  match c, v with
  | PStr x, PStr y => String.eqb x y
  | PInt x, PInt y => (x =? y)%Z
  | PBool x, PBool y => Bool.eqb x y
  | PBool x, PInt y => ((if x then 1 else 0) =? y)%Z
  | PInt x, PBool y => (x =? (if y then 1 else 0))%Z
  | _, _ => false
  end.

Definition series_eq (s : list pyval) (v : pyval) : list bool :=
  map (fun c => cell_eq c v) s.

(** [m1 & m2] and [m1 | m2] on boolean series of one frame. *)
Definition series_and (m1 m2 : list bool) : list bool :=
  map (fun p => fst p && snd p) (combine m1 m2).
Definition series_or (m1 m2 : list bool) : list bool :=
  map (fun p => fst p || snd p) (combine m1 m2).

(** [df[mask]]. *)
Definition select (df : DataFrame) (mask : list bool) : DataFrame :=
  {| columns := columns df;
     rows := map fst (filter snd (combine (rows df) mask)) |}.

(** The pair lookup of [check_interactions]:
    [ddi_df[((ddi_df['RxCUI_1'] == rxcui1) & (ddi_df['RxCUI_2'] == rxcui2)) |
            ((ddi_df['RxCUI_1'] == rxcui2) & (ddi_df['RxCUI_2'] == rxcui1))]]. *)
Definition pair_lookup (ddi_df : DataFrame) (rxcui1 rxcui2 : pyval) : result DataFrame :=
  a1 <- column ddi_df "RxCUI_1" ;;
  a2 <- column ddi_df "RxCUI_2" ;;
  b1 <- column ddi_df "RxCUI_1" ;;
  b2 <- column ddi_df "RxCUI_2" ;;
  Ok (select ddi_df
        (series_or
           (series_and (series_eq a1 rxcui1) (series_eq a2 rxcui2))
           (series_and (series_eq b1 rxcui2) (series_eq b2 rxcui1)))).

(* ================================================================= *)
(** ** [main.check_interactions] *)

Record Interaction : Type := {
  drug1 : pyval;
  drug2 : pyval;
  rxcui1 : pyval;
  rxcui2 : pyval;
  description : pyval;
  alert : string
}.

Record InteractionsResponse : Type := {
  message : string;
  interactions : list Interaction
}.

Definition NO_DRUGS : exn :=
  HTTPException 404 "No drugs found in the prescription.".
Definition NOT_ENOUGH : string :=
  "Not enough drugs with RxCUIs found to check for interactions.".
Definition CHECKED : string := "Interactions checked successfully.".

(** The call [get_ibm_granite_alerts(cell)]: [text.lower()] exists on
    strings only. *)
Definition call_alerts (v : pyval) : result string :=
  match v with
  | PStr s => Ok (get_ibm_granite_alerts s)
  | _ => Raise AttributeError
  end.

(** The body of [for _, row in interaction.iterrows()]: one appended
    entry. *)
Definition interaction_of_row (cols : list string) (row : list pyval) : result Interaction :=
  interaction_description <- row_get cols row "Interaction Description" ;;
  alert <- call_alerts interaction_description ;;
  d1 <- row_get cols row "Drug 1" ;;
  d2 <- row_get cols row "Drug 2" ;;
  r1 <- row_get cols row "RxCUI_1" ;;
  r2 <- row_get cols row "RxCUI_2" ;;
  Ok {| drug1 := d1; drug2 := d2; rxcui1 := r1; rxcui2 := r2;
        description := interaction_description; alert := alert |}.

(** The index pairs visited by
    [for i in range(n): for j in range(i + 1, n)], in order. *)
Definition index_pairs (n : nat) : list (nat * nat) :=
  flat_map (fun i => map (pair i) (seq (i + 1) (n - (i + 1)))) (seq 0 n).

(** The identifier pairs [(found_rxcui[i], found_rxcui[j])] looked up, in
    order. *)
Definition queried_pairs (found_rxcui : list pyval) : list (pyval * pyval) :=
  map (fun ij => (nth (fst ij) found_rxcui PNone, nth (snd ij) found_rxcui PNone))
      (index_pairs (length found_rxcui)).

(** One iteration of the inner loop: the lookup and the entries it
    appends. *)
Definition pair_interactions (ddi_df : DataFrame) (p : pyval * pyval)
  : result (list Interaction) :=
  interaction <- pair_lookup ddi_df (fst p) (snd p) ;;
  mapM (interaction_of_row (columns interaction)) (rows interaction).

(** Lines 57 to 84: from [found_rxcui] to the response. *)
Definition find_interactions (ddi_df : DataFrame) (found_rxcui : list pyval)
  : result InteractionsResponse :=
  if (length found_rxcui <? 2)%nat
  then Ok {| message := NOT_ENOUGH; interactions := [] |}
  else
    per_pair <- mapM (pair_interactions ddi_df) (queried_pairs found_rxcui) ;;
    Ok {| message := CHECKED; interactions := concat per_pair |}.

(** A [dict] with insertion order: assignment to a present key keeps
    its position. *)
Fixpoint dict_set {V} (d : list (string * V)) (k : string) (v : V) : list (string * V) :=
  match d with
  | [] => [(k, v)]
  | (k', v') :: r =>
      if String.eqb k' k then (k', v) :: r else (k', v') :: dict_set r k v
  end.

(** [{drug: get_rxcui(drug) for drug in extracted_drugs}]. *)
Fixpoint rxcui_map_from (net : network) (acc : list (string * pyval))
         (extracted_drugs : list string) : result (list (string * pyval)) :=
  match extracted_drugs with
  | [] => Ok acc
  | drug :: r =>
      v <- get_rxcui net drug ;;
      rxcui_map_from net (dict_set acc drug v) r
  end.

Definition check_interactions
           (ner : string -> list string) (net : network) (ddi_df : DataFrame)
           (text : string) : result InteractionsResponse :=
  let extracted_drugs := ner text in
  match extracted_drugs with
  | [] => Raise NO_DRUGS
  | _ =>
      rxcui_map <- rxcui_map_from net [] extracted_drugs ;;
      let found_rxcui := filter is_not_None (map snd rxcui_map) in
      find_interactions ddi_df found_rxcui
  end.

(* ================================================================= *)
(** ** [main.dosage_alternatives] *)

Record DosageEntry : Type := {
  drug : string;
  rxcui : pyval;
  dosage_forms : list pyval;
  alternatives : list pyval;
  dosage_status : string
}.

Record DosageResponse : Type := {
  dosage_message : string;
  results : list DosageEntry
}.

Definition DOSAGE_CHECKED : string :=
  "Dosage and alternatives checked successfully.".

(** Lines 103 to 107. *)
Definition dosage_status_of (age : Z) (text : string) : string :=
  if (age <? 18)%Z && str_in "tablet" (lower text)
  then "May need dosage adjustment for children."
  else if (age >? 65)%Z
  then "Monitor closely for elderly patients."
  else "Appropriate".

(** The loop [for drug in extracted_drugs], appending to [results]. *)
Fixpoint dosage_loop (net : network) (age : Z) (text : string)
         (results : list DosageEntry) (extracted_drugs : list string)
  : result (list DosageEntry) :=
  match extracted_drugs with
  | [] => Ok results
  | drug :: r =>
      rxcui <- get_rxcui net drug ;;
      if truthy rxcui
      then
        dosage_forms <- get_dosage_forms net rxcui ;;
        alternatives <- get_alternatives net rxcui ;;
        let dosage_status := dosage_status_of age text in
        dosage_loop net age text
          (results ++ [{| drug := drug; rxcui := rxcui;
                          dosage_forms := dosage_forms;
                          alternatives := alternatives;
                          dosage_status := dosage_status |}]) r
      else dosage_loop net age text results r
  end.

Definition dosage_alternatives
           (ner : string -> list string) (net : network)
           (text : string) (age : Z) : result DosageResponse :=
  let extracted_drugs := ner text in
  match extracted_drugs with
  | [] => Raise NO_DRUGS
  | _ =>
      results <- dosage_loop net age text [] extracted_drugs ;;
      Ok {| dosage_message := DOSAGE_CHECKED; results := results |}
  end.

(* ================================================================= *)
(** ** Specification vocabulary *)

(** [occurs k s]: [k] is a contiguous part of [s]. *)
Definition occurs (k s : string) : Prop := exists a b, s = a ++ k ++ b.

Definition SEVERE_KEYWORDS : list string := ["increase"; "risk"; "harmful"; "severe"].
Definition CAUTION_KEYWORDS : list string := ["decrease"; "monitor"; "caution"].

Inductive bucket : Type := Severe | HighRisk | NoRisk.

Definition has_keyword (keys : list string) (s : string) : Prop :=
  exists k, In k keys /\ occurs k s.

(** The classification as the specification words it: first the severe
    keywords, then the caution keywords, on the lower-cased text. *)
Definition classify_with (str_lower : string -> string) (d : string) : bucket :=
  if existsb (fun k => str_in k (str_lower d)) SEVERE_KEYWORDS then Severe
  else if existsb (fun k => str_in k (str_lower d)) CAUTION_KEYWORDS then HighRisk
  else NoRisk.

Definition classify (d : string) : bucket := classify_with lower d.

(** The text holds ASCII characters only. *)
Fixpoint is_ascii (s : string) : bool :=
  match s with
  | EmptyString => true
  | String c r => (nat_of_ascii c <? 128)%nat && is_ascii r
  end.

Definition bucket_message (b : bucket) : string :=
  match b with
  | Severe => SEVERE_ALERT
  | HighRisk => HIGH_RISK_ALERT
  | NoRisk => NO_RISK_ALERT
  end.

(** The row test computed by the mask of [pair_lookup], on the two
    identifier cells of a row. *)
Definition pair_match (c1 c2 x y : pyval) : bool :=
  (cell_eq c1 x && cell_eq c2 y) || (cell_eq c1 y && cell_eq c2 x).

(** Two queried pairs name the same unordered pair of identifiers. *)
Definition same_unordered (p q : pyval * pyval) : Prop :=
  (fst p = fst q /\ snd p = snd q) \/ (fst p = snd q /\ snd p = fst q).

(** No unordered pair occurs at two positions of a list of queries. *)
Definition queried_once (qs : list (pyval * pyval)) : Prop :=
  forall k l p q, (k < l)%nat ->
    nth_error qs k = Some p -> nth_error qs l = Some q -> ~ same_unordered p q.

(** The identifiers at a pair of positions. *)
Definition identifiers_at (found_rxcui : list pyval) (ij : nat * nat) : pyval * pyval :=
  (nth (fst ij) found_rxcui PNone, nth (snd ij) found_rxcui PNone).

(** The position pairs whose lookup is carried out when the loops run
    through [ps]: the run ends with the first iteration that raises. *)
Fixpoint run_lookups (ddi_df : DataFrame) (found_rxcui : list pyval)
         (ps : list (nat * nat)) : list (nat * nat) :=
  match ps with
  | [] => []
  | ij :: r =>
      match pair_interactions ddi_df (identifiers_at found_rxcui ij) with
      | Ok _ => ij :: run_lookups ddi_df found_rxcui r
      | Raise _ => [ij]
      end
  end.

(** The position pairs looked up by one search: none under the guard
    of line 57. *)
Definition evaluated_positions (ddi_df : DataFrame) (found_rxcui : list pyval)
  : list (nat * nat) :=
  if (length found_rxcui <? 2)%nat then []
  else run_lookups ddi_df found_rxcui (index_pairs (length found_rxcui)).

(** An entry whose fields are the cells of [row] under the frame's
    labels, with the alert computed from the row's description. *)
Definition copied_from (cols : list string) (row : list pyval) (e : Interaction) : Prop :=
  row_get cols row "Drug 1" = Ok (drug1 e) /\
  row_get cols row "Drug 2" = Ok (drug2 e) /\
  row_get cols row "RxCUI_1" = Ok (rxcui1 e) /\
  row_get cols row "RxCUI_2" = Ok (rxcui2 e) /\
  row_get cols row "Interaction Description" = Ok (description e) /\
  call_alerts (description e) = Ok (alert e).

(** *** Sample data *)

Definition DDI_COLUMNS : list string :=
  ["Drug 1"; "Drug 2"; "RxCUI_1"; "RxCUI_2"; "Interaction Description"].

Definition sample_row : list pyval :=
  [PStr "Paracetamol"; PStr "Warfarin"; PStr "161"; PStr "11289";
   PStr "May increase risk of bleeding"].

Definition sample_ddi : DataFrame :=
  {| columns := DDI_COLUMNS;
     rows := [ [PStr "Aspirin"; PStr "Ibuprofen"; PStr "1191"; PStr "5640";
                PStr "Monitor renal function"];
               sample_row ] |}.

(** A table read from a file holding the header line only. *)
Definition header_only_ddi : DataFrame := {| columns := DDI_COLUMNS; rows := [] |}.

Definition id_body (ids : list pyval) : response :=
  Body (PDict [("idGroup", PDict [("rxnormId", PList ids)])]).

Definition no_match_body : response := Body (PDict [("idGroup", PDict [])]).

Definition related_body (names : list string) : response :=
  Body (PDict [("relatedGroup",
     PDict [("conceptGroup",
        PList [PDict [("tty", PStr "SCD");
                      ("conceptProperties",
                       PList (map (fun n => PDict [("rxcui", PStr "1"); ("name", PStr n)])
                                  names))]])])]).

(** A service that knows Paracetamol and Warfarin and nothing else. *)
Definition sample_net : network :=
  fun r =>
    match r with
    | RxcuiByName n =>
        if String.eqb n "Paracetamol" then id_body [PStr "161"]
        else if String.eqb n "Warfarin" then id_body [PStr "11289"]
        else no_match_body
    | Related _ _ => related_body ["Oral Tablet"]
    end.

(** A service that matches no name. *)
Definition no_match_net : network :=
  fun r => match r with RxcuiByName _ => no_match_body | Related _ _ => ConnectionFailed end.

(** A service that matches every name with an empty identifier list. *)
Definition empty_ids_net : network := fun _ => id_body [].


(** The lookup failures [get_rxcui] provides for: no connection, an
    error status, an undecodable body, and the two no-match bodies (an
    object without [idGroup], an [idGroup] object without [rxnormId]). *)
Definition lookup_failed (r : response) : Prop :=
  r = ConnectionFailed \/ r = BadStatus \/ r = UndecodableBody \/
  (exists kv, r = Body (PDict kv) /\ assoc "idGroup" kv = None) \/
  (exists kv g, r = Body (PDict kv) /\ assoc "idGroup" kv = Some (PDict g) /\
                assoc "rxnormId" g = None).

(** What the entries of [dosage_alternatives] have in common. *)
Definition resolved_entry (net : network) (age : Z) (text : string)
           (mentions : list string) (e : DosageEntry) : Prop :=
  In (drug e) mentions /\
  get_rxcui net (drug e) = Ok (rxcui e) /\
  truthy (rxcui e) = true /\
  dosage_status e = dosage_status_of age text.

(** The three-way rule in the words of the specification. *)
Definition dosage_rule (age : Z) (text : string) (status : string) : Prop :=
  ((age < 18)%Z /\ occurs "tablet" (lower text) ->
     status = "May need dosage adjustment for children.") /\
  (~ ((age < 18)%Z /\ occurs "tablet" (lower text)) -> (age > 65)%Z ->
     status = "Monitor closely for elderly patients.") /\
  (~ ((age < 18)%Z /\ occurs "tablet" (lower text)) -> (age <= 65)%Z ->
     status = "Appropriate").

(* ================================================================= *)
(** ** The Streamlit caller ([app.py], the interaction checker branch)

    The page is the list of elements it shows, in order.  An element
    built by an f-string is kept as the values it formats.  An uncaught
    exception ends the script run and is shown as the last element. *)

(** The [requests] exception caught by the page, whose text the error
    element formats: no connection, the [HTTPError] that
    [raise_for_status] raises for a status from 400 to 599, or a body
    that is not JSON. *)
Inductive post_error : Type :=
| unreachable
| error_status (code : Z)
| undecodable.

(** The outcome of [requests.post], [raise_for_status] and [json]. *)
Inductive post_result : Type :=
| PostRaised (e : post_error)
| PostJson (data : pyval).

Inductive ui : Type :=
| st_warning (s : string)
| st_success (s : string)
| st_markdown (s : string)
| st_error_backend (e : post_error)
| st_interaction_card (drug1 drug2 description alert : pyval)
| st_exception (e : exn).

(** The dict returned by [check_interactions], as JSON. *)
Definition interaction_json (e : Interaction) : pyval :=
  PDict [("drug1", drug1 e); ("drug2", drug2 e);
         ("rxcui1", rxcui1 e); ("rxcui2", rxcui2 e);
         ("description", description e); ("alert", PStr (alert e))].

Definition interactions_json (r : InteractionsResponse) : pyval :=
  PDict [("message", PStr (message r));
         ("interactions", PList (map interaction_json (interactions r)))].

(** The entry holds a missing table cell (a NaN, which the JSON
    response refuses to encode). *)
Definition has_missing_cell (e : Interaction) : bool :=
  negb (is_not_None (drug1 e)) || negb (is_not_None (drug2 e))
  || negb (is_not_None (rxcui1 e)) || negb (is_not_None (rxcui2 e))
  || negb (is_not_None (description e)).

(** What the page receives from the served endpoint.  A returned dict
    is sent as JSON with status 200, unless an entry holds a missing
    cell: encoding then fails and the status is 500.  An HTTP exception
    is sent with its status code and its detail as body, any other
    exception with status 500. *)
Definition serve (r : result InteractionsResponse) : post_result :=
  match r with
  | Ok body =>
      if existsb has_missing_cell (interactions body)
      then PostRaised (error_status 500)
      else PostJson (interactions_json body)
  | Raise (HTTPException code detail) =>
      if ((400 <=? code) && (code <? 600))%Z
      then PostRaised (error_status code)
      else PostJson (PDict [("detail", PStr detail)])
  | Raise _ => PostRaised (error_status 500)
  end.

(** The f-string of one card reads [drug1], [drug2], [description] and
    [alert] of the entry. *)
Definition interaction_card (interaction : pyval) : result ui :=
  d1 <- py_getitem interaction "drug1" ;;
  d2 <- py_getitem interaction "drug2" ;;
  ds <- py_getitem interaction "description" ;;
  al <- py_getitem interaction "alert" ;;
  Ok (st_interaction_card d1 d2 ds al).

(** [for interaction in data['interactions']: st.markdown(...)]. *)
Fixpoint show_cards (items : list pyval) : list ui :=
  match items with
  | [] => []
  | interaction :: r =>
      match interaction_card interaction with
      | Ok c => c :: show_cards r
      | Raise e => [st_exception e]
      end
  end.

Definition NO_INTERACTIONS : string := "No significant drug interactions detected.".
Definition INTERACTIONS_FOUND : string := "### Potential Drug Interactions Found:".
Definition ENTER_PRESCRIPTION : string :=
  "Please enter a prescription or upload a valid image.".

(** Lines 99 to 124 of [main], once the button is pressed, given the
    answer to the POST request. *)
Definition interaction_checker (prescription_text : string) (post : post_result)
  : list ui :=
  if String.eqb prescription_text "" then [st_warning ENTER_PRESCRIPTION]
  else
    match post with
    | PostRaised e => [st_error_backend e]
    | PostJson data =>
        match py_getitem data "interactions" with
        | Raise e => [st_exception e]
        | Ok found =>
            if negb (truthy found) then [st_success NO_INTERACTIONS]
            else
              match py_iter found with
              | Raise e => [st_markdown INTERACTIONS_FOUND; st_exception e]
              | Ok items => st_markdown INTERACTIONS_FOUND :: show_cards items
              end
        end
    end.

(* ================================================================= *)
(** ** Further vocabulary *)

(** The exceptions raised by subscripting, membership and iteration. *)
Definition lookup_error (e : exn) : Prop :=
  match e with
  | KeyError _ | IndexError | TypeError => True
  | _ => False
  end.

Definition only_lookup_errors {A} (r : result A) : Prop :=
  match r with
  | Ok _ => True
  | Raise e => lookup_error e
  end.

Definition transport_failed (r : response) : Prop :=
  r = ConnectionFailed \/ r = BadStatus \/ r = UndecodableBody.

(** A body without [relatedGroup], or whose [relatedGroup] object has
    no [conceptGroup]. *)
Definition no_concept_group (r : response) : Prop :=
  (exists kv, r = Body (PDict kv) /\ assoc "relatedGroup" kv = None) \/
  (exists kv g, r = Body (PDict kv) /\ assoc "relatedGroup" kv = Some (PDict g) /\
                assoc "conceptGroup" g = None).

(** A body whose [relatedGroup] object lists the concept groups [cg]. *)
Definition concept_groups (cg : list pyval) (r : response) : Prop :=
  exists kv g, r = Body (PDict kv) /\ assoc "relatedGroup" kv = Some (PDict g) /\
               assoc "conceptGroup" g = Some (PList cg).

(** A body whose first concept group has the properties [props]. *)
Definition concept_body (props : pyval) (r : response) : Prop :=
  exists c0 rest, concept_groups (PDict c0 :: rest) r /\
                  assoc "conceptProperties" c0 = Some props.

(** The concept [p] is an object whose [name] is [n]. *)
Definition named (p n : pyval) : Prop :=
  exists kv, p = PDict kv /\ assoc "name" kv = Some n.

(** A computation under [try] may also raise the transport exception. *)
Definition lookup_or_transport_errors {A} (r : result A) : Prop :=
  match r with
  | Ok _ => True
  | Raise e => e = RequestException \/ lookup_error e
  end.

(** The exceptions of the table search: a label the table lacks, or a
    description without [lower]. *)
Definition search_error (e : exn) : Prop :=
  e = AttributeError \/ exists c, In c DDI_COLUMNS /\ e = KeyError c.

(** The network in which every related-concepts request is answered as
    the branded-drug ([SBD]) request for the same identifier. *)
Definition as_SBD (net : network) : network :=
  fun r =>
    match r with
    | Related x _ => net (Related x "SBD")
    | RxcuiByName n => net (RxcuiByName n)
    end.

(** The mention resolves to an identifier that [if rxcui:] accepts. *)
Definition resolves (net : network) (d : string) : bool :=
  match get_rxcui net d with
  | Ok v => truthy v
  | Raise _ => false
  end.

Definition is_PStr (v : pyval) : bool :=
  match v with PStr _ => true | _ => false end.

(** The table has the five labels the endpoint reads. *)
Definition has_ddi_columns (df : DataFrame) : Prop :=
  Forall (fun c => index_of c (columns df) <> None) DDI_COLUMNS.

(** The two identifier cells of a row, when the labels exist. *)
Definition id_cells (df : DataFrame) (row : list pyval) : pyval * pyval :=
  match index_of "RxCUI_1" (columns df), index_of "RxCUI_2" (columns df) with
  | Some i1, Some i2 => (cell i1 row, cell i2 row)
  | _, _ => (PNone, PNone)
  end.

Definition row_matches (df : DataFrame) (row : list pyval) (x y : pyval) : bool :=
  pair_match (fst (id_cells df row)) (snd (id_cells df row)) x y.

(** The description cell of a row, when the label exists. *)
Definition description_cell (df : DataFrame) (row : list pyval) : pyval :=
  match index_of "Interaction Description" (columns df) with
  | Some i => cell i row
  | None => PNone
  end.

(** Lexicographic order on index pairs. *)
Definition lex_lt (p q : nat * nat) : Prop :=
  (fst p < fst q)%nat \/ (fst p = fst q /\ (snd p < snd q)%nat).

(** *** More sample data *)

(** The answer RxNorm gives when no concept of the requested type
    exists: a concept group without properties. *)
Definition no_concepts_body : response :=
  Body (PDict [("relatedGroup",
     PDict [("conceptGroup", PList [PDict [("tty", PStr "SCD")]])])]).

Definition no_concepts_net : network :=
  fun r =>
    match r with
    | RxcuiByName _ => id_body [PStr "161"]
    | Related _ _ => no_concepts_body
    end.

(** Ingredient lookup answers identifier 161; brands answer by name. *)
Definition ingredient_net : network :=
  fun r =>
    match r with
    | RxcuiByName _ => no_match_body
    | Related _ tty =>
        if String.eqb tty "IN" then
          Body (PDict [("relatedGroup",
             PDict [("conceptGroup",
                PList [PDict [("tty", PStr "IN");
                              ("conceptProperties",
                               PList [PDict [("rxcui", PStr "161");
                                             ("name", PStr "Acetaminophen")]])]])])])
        else related_body ["Tylenol"; "Panadol"]
    end.

(** The sample table with its identifier columns read as integers. *)
Definition integer_ddi : DataFrame :=
  {| columns := DDI_COLUMNS;
     rows := [ [PStr "Paracetamol"; PStr "Warfarin"; PInt 161; PInt 11289;
                PStr "May increase risk of bleeding"] ] |}.

(** The sample table with a missing drug name. *)
Definition unnamed_ddi : DataFrame :=
  {| columns := DDI_COLUMNS;
     rows := [ [PNone; PStr "Warfarin"; PStr "161"; PStr "11289";
                PStr "May increase risk of bleeding"] ] |}.

(** The sample table with a missing description. *)
Definition undescribed_ddi : DataFrame :=
  {| columns := DDI_COLUMNS;
     rows := [ [PStr "Paracetamol"; PStr "Warfarin"; PStr "161"; PStr "11289"; PNone] ] |}.

(* ================================================================= *)
(** ** Strings *)

Lemma starts_prefix (n h : string) :
  starts n h = true <-> exists b, h = n ++ b.
Proof.
  revert h; induction n as [|a n IH]; intros h; simpl.
  - split; [intros _; now exists h | reflexivity].
  - destruct h as [|c h]; simpl.
    + split; [discriminate | intros [b Hb]; discriminate].
    + rewrite andb_true_iff, Ascii.eqb_eq, IH. split.
      * intros [-> [b ->]]. now exists b.
      * intros [b Hb]. injection Hb as -> ->. split; [reflexivity | now exists b].
Qed.

Lemma str_in_occurs (n h : string) :
  str_in n h = true <-> occurs n h.
Proof.
  unfold occurs. induction h as [|c h IH].
  - simpl. rewrite orb_false_r, starts_prefix. split.
    + intros [b Hb]. now exists "", b.
    + intros [a [b Hab]]. destruct a; simpl in Hab; [now exists b | discriminate].
  - cbn [str_in]. rewrite orb_true_iff, starts_prefix, IH. split.
    + intros [[b Hb] | [a [b Hab]]].
      * now exists "", b.
      * exists (String c a), b. simpl. now rewrite Hab.
    + intros [a [b Hab]]. destruct a as [|c' a]; simpl in Hab.
      * left. now exists b.
      * right. injection Hab as _ ->. now exists a, b.
Qed.

Lemma existsb_has_keyword (keys : list string) (s : string) :
  existsb (fun k => str_in k s) keys = true <-> has_keyword keys s.
Proof.
  unfold has_keyword. rewrite existsb_exists.
  split; intros [k [Hin Hk]]; exists k; split; trivial;
    now apply str_in_occurs.
Qed.

Lemma existsb_no_keyword (keys : list string) (s : string) :
  existsb (fun k => str_in k s) keys = false <-> ~ has_keyword keys s.
Proof.
  rewrite <- existsb_has_keyword. destruct (existsb _ keys); split;
    congruence.
Qed.

(* ================================================================= *)
(** ** The risk summarizer *)

Lemma alerts_classify_with (str_lower : string -> string) (d : string) :
  get_ibm_granite_alerts_with str_lower d
  = bucket_message (classify_with str_lower d).
Proof.
  unfold get_ibm_granite_alerts_with, classify_with, SEVERE_KEYWORDS, CAUTION_KEYWORDS.
  cbn [existsb]. rewrite !orb_false_r, !orb_assoc.
  destruct (str_in "increase" (str_lower d) || str_in "risk" (str_lower d)
            || str_in "harmful" (str_lower d) || str_in "severe" (str_lower d));
    [reflexivity|].
  destruct (str_in "decrease" (str_lower d) || str_in "monitor" (str_lower d)
            || str_in "caution" (str_lower d)); reflexivity.
Qed.

Lemma classify_with_cases (str_lower : string -> string) (d : string) :
  (classify_with str_lower d = Severe <->
     has_keyword SEVERE_KEYWORDS (str_lower d)) /\
  (classify_with str_lower d = HighRisk <->
     ~ has_keyword SEVERE_KEYWORDS (str_lower d) /\
     has_keyword CAUTION_KEYWORDS (str_lower d)) /\
  (classify_with str_lower d = NoRisk <->
     ~ has_keyword SEVERE_KEYWORDS (str_lower d) /\
     ~ has_keyword CAUTION_KEYWORDS (str_lower d)).
Proof.
  rewrite <- !existsb_no_keyword, <- !existsb_has_keyword. unfold classify_with.
  destruct (existsb _ SEVERE_KEYWORDS); destruct (existsb _ CAUTION_KEYWORDS);
    repeat split; intros; try discriminate; try tauto;
    match goal with H : _ /\ _ |- _ => destruct H; discriminate end.
Qed.

Lemma alerts_classify (d : string) :
  get_ibm_granite_alerts d = bucket_message (classify d).
Proof. apply alerts_classify_with. Qed.

Lemma classify_cases (d : string) :
  (classify d = Severe <-> has_keyword SEVERE_KEYWORDS (lower d)) /\
  (classify d = HighRisk <->
     ~ has_keyword SEVERE_KEYWORDS (lower d) /\
     has_keyword CAUTION_KEYWORDS (lower d)) /\
  (classify d = NoRisk <->
     ~ has_keyword SEVERE_KEYWORDS (lower d) /\
     ~ has_keyword CAUTION_KEYWORDS (lower d)).
Proof. apply classify_with_cases. Qed.

Lemma bucket_message_inj (b c : bucket) :
  bucket_message b = bucket_message c -> b = c.
Proof. destruct b, c; (reflexivity || discriminate). Qed.

(** C2. For every lower-casing function that agrees with the ASCII one
    on ASCII text, as [str.lower] does, the summarizer is the keyword
    classification of the lower-cased description: the severe message
    exactly when one of increase, risk, harmful, severe occurs in it;
    otherwise the high-risk message exactly when one of decrease,
    monitor, caution occurs; otherwise the no-risk message.  The three
    messages are distinct, and the three sample descriptions fall in the
    severe, high-risk and no-risk bucket. *)
Theorem summarize_keyword_classification (str_lower : string -> string) :
  (forall s, is_ascii s = true -> str_lower s = lower s) ->
  (forall d, get_ibm_granite_alerts_with str_lower d
             = bucket_message (classify_with str_lower d)) /\
  (forall d, get_ibm_granite_alerts_with str_lower d = SEVERE_ALERT <->
             has_keyword SEVERE_KEYWORDS (str_lower d)) /\
  (forall d, get_ibm_granite_alerts_with str_lower d = HIGH_RISK_ALERT <->
             ~ has_keyword SEVERE_KEYWORDS (str_lower d) /\
             has_keyword CAUTION_KEYWORDS (str_lower d)) /\
  (forall d, get_ibm_granite_alerts_with str_lower d = NO_RISK_ALERT <->
             ~ has_keyword SEVERE_KEYWORDS (str_lower d) /\
             ~ has_keyword CAUTION_KEYWORDS (str_lower d)) /\
  (SEVERE_ALERT <> HIGH_RISK_ALERT /\ SEVERE_ALERT <> NO_RISK_ALERT /\
   HIGH_RISK_ALERT <> NO_RISK_ALERT) /\
  get_ibm_granite_alerts_with str_lower "Risk of severe bleeding" = SEVERE_ALERT /\
  get_ibm_granite_alerts_with str_lower "Monitor for caution" = HIGH_RISK_ALERT /\
  get_ibm_granite_alerts_with str_lower "No notable effect" = NO_RISK_ALERT.
Proof.
  intros Hascii.
  split; [apply alerts_classify_with|].
  assert (Hinv : forall d b,
             get_ibm_granite_alerts_with str_lower d = bucket_message b
             <-> classify_with str_lower d = b).
  { intros d b. rewrite alerts_classify_with. split.
    - apply bucket_message_inj.
    - now intros ->. }
  split; [|split; [|split; [|split]]].
  - intros d. rewrite (Hinv d Severe). apply classify_with_cases.
  - intros d. rewrite (Hinv d HighRisk). apply classify_with_cases.
  - intros d. rewrite (Hinv d NoRisk). apply classify_with_cases.
  - repeat split; discriminate.
  - unfold get_ibm_granite_alerts_with. cbv zeta.
    rewrite !Hascii by reflexivity. repeat split; reflexivity.
Qed.

Lemma summarize_keyword_classification_witness :
  (forall d, get_ibm_granite_alerts d = SEVERE_ALERT <->
             has_keyword SEVERE_KEYWORDS (lower d)) /\
  get_ibm_granite_alerts "Risk of severe bleeding" = SEVERE_ALERT /\
  get_ibm_granite_alerts "Monitor for caution" = HIGH_RISK_ALERT /\
  get_ibm_granite_alerts "No notable effect" = NO_RISK_ALERT.
Proof.
  destruct (@summarize_keyword_classification lower)
    as (_ & Hs & _ & _ & _ & E1 & E2 & E3).
  - intros s _. reflexivity.
  - split; [exact Hs|]. split; [exact E1|]. split; [exact E2 | exact E3].
Defined.

(* ================================================================= *)
(** ** The pair lookup *)

Lemma mask_filter (f g : list pyval -> bool) (rs : list (list pyval)) :
  map fst (filter snd (combine rs
     (map (fun p => fst p || snd p) (combine (map f rs) (map g rs)))))
  = filter (fun r => f r || g r) rs.
Proof.
  induction rs as [|r rs IH]; simpl; [reflexivity|].
  destruct (f r || g r); simpl; now rewrite IH.
Qed.

Lemma series_and_rows (i1 i2 : nat) (x y : pyval) (rs : list (list pyval)) :
  series_and (series_eq (map (cell i1) rs) x) (series_eq (map (cell i2) rs) y)
  = map (fun r => cell_eq (cell i1 r) x && cell_eq (cell i2 r) y) rs.
Proof.
  unfold series_and, series_eq.
  induction rs as [|r rs IH]; simpl; [reflexivity | now rewrite IH].
Qed.

(** The lookup, row by row. *)
Lemma pair_lookup_rows (df : DataFrame) (x y : pyval) :
  pair_lookup df x y =
  match index_of "RxCUI_1" (columns df), index_of "RxCUI_2" (columns df) with
  | Some i1, Some i2 =>
      Ok {| columns := columns df;
            rows := filter (fun r => pair_match (cell i1 r) (cell i2 r) x y) (rows df) |}
  | None, _ => Raise (KeyError "RxCUI_1")
  | Some _, None => Raise (KeyError "RxCUI_2")
  end.
Proof.
  unfold pair_lookup, column.
  destruct (index_of "RxCUI_1" (columns df)) as [i1|]; [|reflexivity].
  destruct (index_of "RxCUI_2" (columns df)) as [i2|]; [|reflexivity].
  cbn [bind]. unfold select, series_or. cbn [columns rows].
  rewrite !series_and_rows, mask_filter. reflexivity.
Qed.

Lemma pair_match_sym (c1 c2 x y : pyval) :
  pair_match c1 c2 x y = pair_match c1 c2 y x.
Proof. unfold pair_match. apply orb_comm. Qed.

Lemma pair_lookup_sym (df : DataFrame) (x y : pyval) :
  pair_lookup df x y = pair_lookup df y x.
Proof.
  rewrite !pair_lookup_rows.
  destruct (index_of "RxCUI_1" (columns df)) as [i1|]; [|reflexivity].
  destruct (index_of "RxCUI_2" (columns df)) as [i2|]; [|reflexivity].
  do 2 f_equal. apply filter_ext. intros r. apply pair_match_sym.
Qed.

Lemma pair_interactions_sym (df : DataFrame) (x y : pyval) :
  pair_interactions df (x, y) = pair_interactions df (y, x).
Proof. unfold pair_interactions. cbn [fst snd]. now rewrite pair_lookup_sym. Qed.

Lemma find_interactions_two (df : DataFrame) (x y : pyval) :
  find_interactions df [x; y] =
  (es <- pair_interactions df (x, y) ;;
   Ok {| message := CHECKED; interactions := es ++ [] |}).
Proof.
  unfold find_interactions, queried_pairs, index_pairs. cbn.
  destruct (pair_interactions df (x, y)); reflexivity.
Qed.

(** C1. When the table stores a row for the identifiers (X, Y), looking
    the pair up as (X, Y) and as (Y, X) gives the same selection, that
    selection holds the stored row, and the interaction search over
    [X; Y] and over [Y; X] gives identical results. *)
Theorem pair_lookup_symmetric (df : DataFrame) (i1 i2 : nat)
        (row : list pyval) (x y : pyval) :
  index_of "RxCUI_1" (columns df) = Some i1 ->
  index_of "RxCUI_2" (columns df) = Some i2 ->
  In row (rows df) ->
  cell_eq (cell i1 row) x = true ->
  cell_eq (cell i2 row) y = true ->
  (exists sel, pair_lookup df x y = Ok sel /\
               pair_lookup df y x = Ok sel /\
               In row (rows sel)) /\
  find_interactions df [x; y] = find_interactions df [y; x].
Proof.
  intros H1 H2 Hin Hx Hy. split.
  - rewrite <- (pair_lookup_sym df x y), pair_lookup_rows, H1, H2.
    eexists. split; [reflexivity|]. split; [reflexivity|].
    cbn [rows]. apply filter_In. split; [exact Hin|].
    unfold pair_match. now rewrite Hx, Hy.
  - rewrite !find_interactions_two. now rewrite pair_interactions_sym.
Qed.

Lemma pair_lookup_symmetric_witness :
  (exists sel, pair_lookup sample_ddi (PStr "161") (PStr "11289") = Ok sel /\
               pair_lookup sample_ddi (PStr "11289") (PStr "161") = Ok sel /\
               In sample_row (rows sel)) /\
  find_interactions sample_ddi [PStr "161"; PStr "11289"]
  = find_interactions sample_ddi [PStr "11289"; PStr "161"].
Proof.
  apply (@pair_lookup_symmetric sample_ddi 2 3 sample_row (PStr "161") (PStr "11289")).
  - reflexivity.
  - reflexivity.
  - simpl. right. left. reflexivity.
  - reflexivity.
  - reflexivity.
Defined.

(* ================================================================= *)
(** ** Fewer than two identifiers, no drugs, no table *)

Lemma queried_pairs_head (a b : pyval) (r : list pyval) :
  exists qs, queried_pairs (a :: b :: r) = (a, b) :: qs.
Proof.
  unfold queried_pairs, index_pairs. cbn [length seq flat_map Nat.add Nat.sub].
  cbn [map app fst snd nth]. eexists. reflexivity.
Qed.

(** C4. With fewer than two resolved identifiers the interaction search
    returns the empty list with the not-enough-drugs message, whatever
    the table; the endpoint does so whenever the extractor found a
    mention and the lookups left fewer than two identifiers. *)
Theorem insufficient_identifiers (df : DataFrame) (found_rxcui : list pyval) :
  (length found_rxcui < 2)%nat ->
  find_interactions df found_rxcui
    = Ok {| message := NOT_ENOUGH; interactions := [] |} /\
  (forall ner net text rxcui_map,
      ner text <> [] ->
      rxcui_map_from net [] (ner text) = Ok rxcui_map ->
      filter is_not_None (map snd rxcui_map) = found_rxcui ->
      check_interactions ner net df text
        = Ok {| message := NOT_ENOUGH; interactions := [] |}).
Proof.
  intros Hlen.
  assert (Hf : find_interactions df found_rxcui
               = Ok {| message := NOT_ENOUGH; interactions := [] |}).
  { unfold find_interactions.
    destruct (Nat.ltb_spec (length found_rxcui) 2) as [_|Hge]; [reflexivity | lia]. }
  split; [exact Hf|].
  intros ner net text rxcui_map Hne Hmap Hfound.
  unfold check_interactions.
  destruct (ner text) as [|d ds] eqn:E; [congruence|].
  rewrite Hmap. cbn [bind]. now rewrite Hfound.
Qed.

Lemma insufficient_identifiers_witness :
  find_interactions sample_ddi [PStr "161"]
    = Ok {| message := NOT_ENOUGH; interactions := [] |} /\
  check_interactions (fun _ => ["Paracetamol"; "Aspirine"]) sample_net sample_ddi
                     "Paracetamol and Aspirine"
    = Ok {| message := NOT_ENOUGH; interactions := [] |}.
Proof.
  destruct (@insufficient_identifiers sample_ddi [PStr "161"]) as [H1 H2].
  - simpl. lia.
  - split; [exact H1|].
    apply (H2 (fun _ => ["Paracetamol"; "Aspirine"]) sample_net
              "Paracetamol and Aspirine"
              [("Paracetamol", PStr "161"); ("Aspirine", PNone)]).
    + discriminate.
    + reflexivity.
    + reflexivity.
Defined.

(** C5. When the extractor returns no mention, both endpoints raise the
    404 HTTP exception with the no-drugs detail: a handled not-found
    response, distinct from every other exception of the model. *)
Theorem no_drugs_found_is_404
        (ner : string -> list string) (net : network) (df : DataFrame)
        (text : string) (age : Z) :
  ner text = [] ->
  check_interactions ner net df text
    = Raise (HTTPException 404 "No drugs found in the prescription.") /\
  dosage_alternatives ner net text age
    = Raise (HTTPException 404 "No drugs found in the prescription.") /\
  HTTPException 404 "No drugs found in the prescription." <> RequestException.
Proof.
  intros H. unfold check_interactions, dosage_alternatives. rewrite H.
  repeat split; discriminate.
Qed.

Lemma no_drugs_found_is_404_witness :
  check_interactions (fun _ => []) sample_net sample_ddi "Rest and fluids."
    = Raise (HTTPException 404 "No drugs found in the prescription.") /\
  dosage_alternatives (fun _ => []) sample_net "Rest and fluids." 40
    = Raise (HTTPException 404 "No drugs found in the prescription.") /\
  HTTPException 404 "No drugs found in the prescription." <> RequestException.
Proof.
  apply (@no_drugs_found_is_404 (fun _ => []) sample_net sample_ddi
                                "Rest and fluids." 40).
  reflexivity.
Defined.

(** The extractor as it stands never returns the empty list, so the
    deployed endpoints only reach the 404 branch once it is replaced. *)
Lemma stub_extractor_never_empty (text : string) :
  query_hugging_face_ner text <> [].
Proof. discriminate. Qed.

Lemma mapM_all_nil {A B} (f : A -> result (list B)) (xs : list A) :
  (forall x, f x = Ok []) ->
  exists ys, mapM f xs = Ok ys /\ concat ys = [].
Proof.
  intros Hf. induction xs as [|x xs [ys [Hys Hc]]]; simpl.
  - now exists [].
  - rewrite Hf, Hys. cbn [bind]. exists ([] :: ys). split; [reflexivity | exact Hc].
Qed.

(** A table with the identifier columns and no rows gives no
    interaction, for any number of identifiers. *)
Lemma rowless_table_no_interactions (df : DataFrame) (i1 i2 : nat) (found : list pyval) :
  index_of "RxCUI_1" (columns df) = Some i1 ->
  index_of "RxCUI_2" (columns df) = Some i2 ->
  rows df = [] ->
  exists m, find_interactions df found = Ok {| message := m; interactions := [] |}.
Proof.
  intros H1 H2 Hr. unfold find_interactions.
  destruct (length found <? 2)%nat; [now eexists|].
  destruct (@mapM_all_nil _ _ (pair_interactions df) (queried_pairs found))
    as [ys [Hys Hc]].
  - intros p. unfold pair_interactions.
    rewrite pair_lookup_rows, H1, H2, Hr. reflexivity.
  - rewrite Hys. cbn [bind]. rewrite Hc. now eexists.
Qed.

(** Without the identifier column every search over two or more
    identifiers raises. *)
Lemma columnless_table_raises (df : DataFrame) (found : list pyval) :
  index_of "RxCUI_1" (columns df) = None ->
  (2 <= length found)%nat ->
  find_interactions df found = Raise (KeyError "RxCUI_1").
Proof.
  intros Hc Hlen. unfold find_interactions.
  destruct (Nat.ltb_spec (length found) 2) as [Hlt|_]; [lia|].
  destruct found as [|a [|b r]]; simpl in Hlen; try lia.
  destruct (queried_pairs_head a b r) as [qs ->].
  cbn [mapM]. unfold pair_interactions at 1.
  rewrite pair_lookup_rows, Hc. reflexivity.
Qed.

(** A read failure other than the missing file is not caught: the
    module fails to load. *)
Lemma unreadable_dataset_propagates :
  load_ddi_dataset (Raise EmptyDataError) = Raise EmptyDataError.
Proof. reflexivity. Qed.

(** C3. The missing dataset file: [load_ddi_dataset] falls back to the
    frame without columns, on which every pair lookup raises
    [KeyError], and so does a request whose two mentions both resolve;
    a table with its header and no rows answers the same request with
    an empty interaction list. *)
Theorem missing_dataset_lookup_raises :
  load_ddi_dataset (Raise FileNotFoundError) = Ok empty_DataFrame /\
  (forall x y, pair_lookup empty_DataFrame x y = Raise (KeyError "RxCUI_1")) /\
  find_interactions empty_DataFrame [PStr "161"; PStr "11289"]
    = Raise (KeyError "RxCUI_1") /\
  check_interactions query_hugging_face_ner sample_net empty_DataFrame
                     "Take Paracetamol 500mg and Warfarin 10mg daily."
    = Raise (KeyError "RxCUI_1") /\
  check_interactions query_hugging_face_ner sample_net header_only_ddi
                     "Take Paracetamol 500mg and Warfarin 10mg daily."
    = Ok {| message := CHECKED; interactions := [] |}.
Proof. repeat split. Qed.

(* ================================================================= *)
(** ** Pair enumeration *)

Lemma in_index_pairs (n i j : nat) :
  In (i, j) (index_pairs n) <-> (i < j /\ j < n)%nat.
Proof.
  unfold index_pairs. rewrite in_flat_map. split.
  - intros [i' [Hi Hin]]. apply in_map_iff in Hin as [j' [Heq Hj]].
    injection Heq as -> ->. apply in_seq in Hi, Hj. lia.
  - intros [Hij Hjn]. exists i. split.
    + apply in_seq. lia.
    + apply in_map_iff. exists j. split; [reflexivity|]. apply in_seq. lia.
Qed.

Lemma NoDup_tagged (f : nat -> list nat) (l : list nat) :
  NoDup l -> (forall i, NoDup (f i)) ->
  NoDup (flat_map (fun i => map (pair i) (f i)) l).
Proof.
  intros Hl Hf. induction Hl as [|i l Hni Hl IH]; simpl; [constructor|].
  apply NoDup_app.
  - assert (Hmap : forall xs : list nat, NoDup xs -> NoDup (map (pair i) xs)).
    { induction 1 as [|x xs Hx _ IHxs]; simpl; constructor; trivial.
      intros Hin. apply in_map_iff in Hin as [x' [Heq Hx']].
      injection Heq as ->. contradiction. }
    apply Hmap, Hf.
  - exact IH.
  - intros [a b] Ha Hb. apply in_map_iff in Ha as [b' [Heq _]].
    injection Heq as <- <-.
    apply in_flat_map in Hb as [i' [Hi' Hin]].
    apply in_map_iff in Hin as [b'' [Heq _]]. injection Heq as -> _.
    contradiction.
Qed.

Lemma NoDup_index_pairs (n : nat) : NoDup (index_pairs n).
Proof.
  unfold index_pairs. apply NoDup_tagged; [|intros i]; apply seq_NoDup.
Qed.

Lemma queried_distinct_once (found : list pyval) :
  NoDup found -> queried_once (queried_pairs found).
Proof.
  intros Hnd k l p q Hkl Hp Hq Hsame. unfold queried_pairs in Hp, Hq.
  rewrite nth_error_map in Hp, Hq.
  destruct (nth_error (index_pairs (length found)) k) as [[ik jk]|] eqn:Ek;
    [|discriminate].
  destruct (nth_error (index_pairs (length found)) l) as [[il jl]|] eqn:El;
    [|discriminate].
  cbn in Hp, Hq. injection Hp as <-. injection Hq as <-.
  assert (Hk : (ik < jk /\ jk < length found)%nat)
    by (apply in_index_pairs; eapply nth_error_In; eassumption).
  assert (Hl : (il < jl /\ jl < length found)%nat)
    by (apply in_index_pairs; eapply nth_error_In; eassumption).
  pose proof (proj1 (NoDup_nth found PNone) Hnd) as Hinj.
  destruct Hsame as [[H1 H2] | [H1 H2]]; cbn [fst snd] in H1, H2.
  - apply Hinj in H1; [|lia|lia]. apply Hinj in H2; [|lia|lia]. subst il jl.
    assert (k = l); [|lia].
    apply (proj1 (NoDup_nth_error (index_pairs (length found)))
                 (NoDup_index_pairs _)).
    + apply nth_error_Some. congruence.
    + congruence.
  - apply Hinj in H1; [|lia|lia]. apply Hinj in H2; [|lia|lia]. lia.
Qed.

Lemma run_lookups_prefix (df : DataFrame) (found : list pyval) (ps : list (nat * nat)) :
  exists rest, ps = (run_lookups df found ps ++ rest)%list.
Proof.
  induction ps as [|ij ps [rest IH]]; cbn [run_lookups]; [now exists []|].
  destruct (pair_interactions df (identifiers_at found ij)).
  - exists rest. cbn. now rewrite <- IH.
  - now exists ps.
Qed.

Lemma run_lookups_returned (df : DataFrame) (found : list pyval)
      (ps : list (nat * nat)) (ys : list (list Interaction)) :
  mapM (pair_interactions df) (map (identifiers_at found) ps) = Ok ys ->
  run_lookups df found ps = ps.
Proof.
  revert ys. induction ps as [|ij ps IH]; intros ys H; [reflexivity|].
  cbn [map mapM run_lookups] in H |- *.
  destruct (pair_interactions df (identifiers_at found ij)); [|discriminate].
  cbn [bind] in H.
  destruct (mapM (pair_interactions df) (map (identifiers_at found) ps)) as [ys'|];
    [|discriminate].
  now rewrite (IH ys').
Qed.

Lemma run_lookups_raised (df : DataFrame) (found : list pyval)
      (ps : list (nat * nat)) (e : exn) :
  mapM (pair_interactions df) (map (identifiers_at found) ps) = Raise e ->
  exists pre ij, run_lookups df found ps = (pre ++ [ij])%list /\
                 pair_interactions df (identifiers_at found ij) = Raise e.
Proof.
  induction ps as [|ij ps IH]; intros H; [discriminate|].
  cbn [map mapM run_lookups] in H |- *.
  destruct (pair_interactions df (identifiers_at found ij)) as [es|e0] eqn:E.
  - cbn [bind] in H.
    destruct (mapM (pair_interactions df) (map (identifiers_at found) ps)) as [ys|e1];
      [discriminate|].
    cbn [bind] in H. injection H as ->.
    destruct IH as [pre [ij' [Hrun Hij']]]; [reflexivity|].
    exists (ij :: pre), ij'. rewrite Hrun. now split.
  - injection H as ->. exists [], ij. now split.
Qed.

Lemma evaluated_positions_returned (df : DataFrame) (found : list pyval)
      (resp : InteractionsResponse) :
  find_interactions df found = Ok resp ->
  evaluated_positions df found
  = if (length found <? 2)%nat then [] else index_pairs (length found).
Proof.
  unfold find_interactions, evaluated_positions.
  destruct (length found <? 2)%nat; [reflexivity|].
  change (queried_pairs found)
    with (map (identifiers_at found) (index_pairs (length found))).
  destruct (mapM (pair_interactions df)
                 (map (identifiers_at found) (index_pairs (length found))))
    as [ys|] eqn:E; [|discriminate].
  intros _. now apply run_lookups_returned in E.
Qed.

Lemma evaluated_positions_prefix (df : DataFrame) (found : list pyval) :
  exists rest,
    index_pairs (length found) = (evaluated_positions df found ++ rest)%list.
Proof.
  unfold evaluated_positions. destruct (length found <? 2)%nat.
  - now exists (index_pairs (length found)).
  - apply run_lookups_prefix.
Qed.

Lemma queried_once_prefix (l1 l2 : list (pyval * pyval)) :
  queried_once (l1 ++ l2)%list -> queried_once l1.
Proof.
  intros H k l p q Hkl Hp Hq. apply (H k l p q Hkl).
  - rewrite nth_error_app1; [exact Hp | apply nth_error_Some; congruence].
  - rewrite nth_error_app1; [exact Hq | apply nth_error_Some; congruence].
Qed.

(** C8 (as the code has it). For every identifier sequence and table,
    each pair of positions i < j is looked up at most once, and exactly
    once when the search returns; a search that raises stops at the
    lookup that raised.  Identifiers are not deduplicated: when they
    are pairwise distinct, no unordered identifier pair is looked up
    more than once. *)
Theorem pairs_evaluated_at_most_once (df : DataFrame) (found_rxcui : list pyval) :
  NoDup (evaluated_positions df found_rxcui) /\
  (forall i j, In (i, j) (evaluated_positions df found_rxcui) ->
               (i < j /\ j < length found_rxcui)%nat) /\
  (forall resp, find_interactions df found_rxcui = Ok resp ->
                forall i j, (i < j /\ j < length found_rxcui)%nat ->
                            In (i, j) (evaluated_positions df found_rxcui)) /\
  (forall e, find_interactions df found_rxcui = Raise e ->
             exists pre ij,
               evaluated_positions df found_rxcui = (pre ++ [ij])%list /\
               pair_interactions df (identifiers_at found_rxcui ij) = Raise e) /\
  (NoDup found_rxcui ->
   queried_once (map (identifiers_at found_rxcui)
                     (evaluated_positions df found_rxcui))).
Proof.
  destruct (evaluated_positions_prefix df found_rxcui) as [rest Hpre].
  pose proof (NoDup_index_pairs (length found_rxcui)) as Hnd.
  rewrite Hpre in Hnd.
  split; [now apply NoDup_app_remove_r in Hnd|].
  split.
  { intros i j Hin. apply in_index_pairs. rewrite Hpre.
    apply in_or_app. now left. }
  split.
  { intros resp Hok i j Hij. rewrite (evaluated_positions_returned _ _ Hok).
    destruct (Nat.ltb_spec (length found_rxcui) 2) as [Hlt|_]; [lia|].
    now apply in_index_pairs. }
  split.
  { intros e He. unfold find_interactions, evaluated_positions in *.
    destruct (length found_rxcui <? 2)%nat; [discriminate|].
    change (queried_pairs found_rxcui)
      with (map (identifiers_at found_rxcui) (index_pairs (length found_rxcui))) in He.
    destruct (mapM (pair_interactions df)
                   (map (identifiers_at found_rxcui)
                        (index_pairs (length found_rxcui)))) as [ys|e0] eqn:E;
      [discriminate|].
    cbn [bind] in He. injection He as ->. now apply run_lookups_raised. }
  intros Hdistinct. apply queried_distinct_once in Hdistinct.
  change (queried_pairs found_rxcui)
    with (map (identifiers_at found_rxcui) (index_pairs (length found_rxcui)))
    in Hdistinct.
  rewrite Hpre, map_app in Hdistinct. now apply queried_once_prefix in Hdistinct.
Qed.

Lemma pairs_evaluated_at_most_once_witness :
  evaluated_positions sample_ddi [PStr "161"; PStr "11289"; PStr "1191"]
    = [(0, 1); (0, 2); (1, 2)]%nat /\
  queried_once (map (identifiers_at [PStr "161"; PStr "11289"; PStr "1191"])
                    (evaluated_positions sample_ddi
                       [PStr "161"; PStr "11289"; PStr "1191"])) /\
  evaluated_positions empty_DataFrame [PStr "161"; PStr "11289"; PStr "1191"]
    = [(0, 1)]%nat.
Proof.
  split; [reflexivity|]. split; [|reflexivity].
  apply (@pairs_evaluated_at_most_once sample_ddi
           [PStr "161"; PStr "11289"; PStr "1191"]).
  repeat constructor; simpl; intuition discriminate.
Defined.

(** C8 as stated fails: with the identifiers [1; 2; 1] (two mentions
    resolving to the same identifier) the pair {1, 2} is looked up at
    positions (0, 1) and again at (1, 2). *)
Lemma duplicate_identifier_queried_twice :
  queried_pairs [PStr "1"; PStr "2"; PStr "1"]
    = [(PStr "1", PStr "2"); (PStr "1", PStr "1"); (PStr "2", PStr "1")] /\
  ~ queried_once (queried_pairs [PStr "1"; PStr "2"; PStr "1"]).
Proof.
  split; [reflexivity|]. intros H.
  apply (H 0%nat 2%nat (PStr "1", PStr "2") (PStr "2", PStr "1")).
  - lia.
  - reflexivity.
  - reflexivity.
  - right. split; reflexivity.
Qed.

(* ================================================================= *)
(** ** Entries of [check_interactions] *)


Lemma interaction_of_row_copies (cols : list string) (row : list pyval) (e : Interaction) :
  interaction_of_row cols row = Ok e -> copied_from cols row e.
Proof.
  unfold interaction_of_row, copied_from. intros H.
  destruct (row_get cols row "Interaction Description") as [d|]; [|discriminate].
  cbn [bind] in H.
  destruct (call_alerts d) as [a|] eqn:Ea; [|discriminate]. cbn [bind] in H.
  destruct (row_get cols row "Drug 1") as [d1|]; [|discriminate]. cbn [bind] in H.
  destruct (row_get cols row "Drug 2") as [d2|]; [|discriminate]. cbn [bind] in H.
  destruct (row_get cols row "RxCUI_1") as [r1|]; [|discriminate]. cbn [bind] in H.
  destruct (row_get cols row "RxCUI_2") as [r2|]; [|discriminate]. cbn [bind] in H.
  injection H as <-. cbn. repeat split; trivial.
Qed.






(* ================================================================= *)
(** ** Identifier resolution *)

(** A matched name resolves to the first listed identifier. *)
Lemma get_rxcui_first_match (net : network) (name : string)
      (kv g : list (string * pyval)) (v : pyval) (ids : list pyval) :
  net (RxcuiByName name) = Body (PDict kv) ->
  assoc "idGroup" kv = Some (PDict g) ->
  assoc "rxnormId" g = Some (PList (v :: ids)) ->
  get_rxcui net name = Ok v.
Proof.
  intros Hn Hk Hg. unfold get_rxcui, fetch. rewrite Hn. cbn -[assoc].
  rewrite Hk. cbn -[assoc]. rewrite Hg. cbn -[assoc].
  destruct v; reflexivity.
Qed.

(** C6 (as the code has it). On a connection failure, an error status,
    an undecodable body, or a no-match body (no [idGroup], or an
    [idGroup] object without [rxnormId]), [get_rxcui] returns [None]
    and does not raise. *)
Theorem get_rxcui_none_on_lookup_failure (net : network) (name : string) :
  lookup_failed (net (RxcuiByName name)) ->
  get_rxcui net name = Ok PNone.
Proof.
  unfold get_rxcui, fetch.
  intros [H | [H | [H | [[kv [H Hk]] | [kv [g [H [Hk Hg]]]]]]]]; rewrite H;
    cbn -[assoc]; try reflexivity.
  - now rewrite Hk.
  - rewrite Hk. cbn -[assoc]. now rewrite Hg.
Qed.

Lemma get_rxcui_none_on_lookup_failure_witness :
  get_rxcui no_match_net "Aspirine" = Ok PNone.
Proof.
  apply (@get_rxcui_none_on_lookup_failure no_match_net "Aspirine").
  right. right. right. right. exists [("idGroup", PDict [])], [].
  repeat split.
Defined.

(** C6 as stated fails: a body whose [rxnormId] list is empty passes
    both membership tests and the index [0] raises [IndexError], which
    the handler for [RequestException] lets through. *)
Lemma get_rxcui_raises_on_empty_id_list :
  get_rxcui empty_ids_net "Paracetamol" = Raise IndexError /\
  ~ (forall net name, exists v, get_rxcui net name = Ok v).
Proof.
  split; [reflexivity|]. intros H.
  destruct (H empty_ids_net "Paracetamol") as [v Hv]. discriminate.
Qed.

(* ================================================================= *)
(** ** Entries of [dosage_alternatives] *)

Lemma dosage_loop_entries (net : network) (age : Z) (text : string)
      (l : list string) (acc res : list DosageEntry) :
  dosage_loop net age text acc l = Ok res ->
  exists new, res = (acc ++ new)%list /\ Forall (resolved_entry net age text l) new.
Proof.
  revert acc. induction l as [|d l IH]; intros acc H; cbn [dosage_loop] in H.
  - injection H as <-. exists []. split; [now rewrite app_nil_r | constructor].
  - destruct (get_rxcui net d) as [v|] eqn:Ev; [|discriminate]. cbn [bind] in H.
    assert (Hweak : forall new, Forall (resolved_entry net age text l) new ->
                                Forall (resolved_entry net age text (d :: l)) new).
    { intros new. apply Forall_impl. intros e (Hin & Hr). split; [now right | exact Hr]. }
    destruct (truthy v) eqn:Et.
    + destruct (get_dosage_forms net v) as [fs|]; [|discriminate]. cbn [bind] in H.
      destruct (get_alternatives net v) as [al|]; [|discriminate]. cbn [bind] in H.
      apply IH in H as [new [-> Hnew]].
      eexists. split; [now rewrite <- app_assoc|]. cbn [app].
      constructor; [|now apply Hweak].
      unfold resolved_entry. cbn. auto.
    + apply IH in H as [new [-> Hnew]]. exists new. split; [reflexivity | now apply Hweak].
Qed.

Lemma dosage_loop_unresolved (net : network) (age : Z) (text : string)
      (l : list string) (acc : list DosageEntry) :
  (forall d, In d l -> get_rxcui net d = Ok PNone) ->
  dosage_loop net age text acc l = Ok acc.
Proof.
  induction l as [|d l IH]; intros H; cbn [dosage_loop]; [reflexivity|].
  rewrite (H d (or_introl eq_refl)). cbn. apply IH.
  intros d' Hd'. apply H. now right.
Qed.

Lemma dosage_alternatives_entries (ner : string -> list string) (net : network)
      (text : string) (age : Z) (resp : DosageResponse) :
  dosage_alternatives ner net text age = Ok resp ->
  Forall (resolved_entry net age text (ner text)) (results resp).
Proof.
  unfold dosage_alternatives. destruct (ner text) as [|d ds] eqn:E; [discriminate|].
  destruct (dosage_loop net age text [] (d :: ds)) as [res|] eqn:El; [|discriminate].
  cbn [bind]. intros H. injection H as <-. cbn [results].
  apply dosage_loop_entries in El as [new [-> Hnew]]. exact Hnew.
Qed.

Lemma dosage_status_of_rule (age : Z) (text : string) :
  dosage_rule age text (dosage_status_of age text).
Proof.
  unfold dosage_rule, dosage_status_of.
  destruct (Z.ltb_spec age 18) as [Hlt|Hge];
    destruct (str_in "tablet" (lower text)) eqn:Et; cbn [andb];
    try (apply str_in_occurs in Et);
    try (assert (Hno : ~ occurs "tablet" (lower text))
          by (intros Ho; apply str_in_occurs in Ho; congruence));
    destruct (Z.gtb_spec age 65) as [Hgt|Hle];
    repeat split; intros; try reflexivity; try tauto; try lia.
Qed.

(** C7. Every entry returned by [dosage_alternatives] carries the
    status computed from the age and the prescription text alone, the
    same for every drug: the children label when age < 18 and the
    lower-cased text contains tablet, else the elderly label when
    age > 65, else Appropriate. *)
Theorem dosage_status_fixed_rule
        (ner : string -> list string) (net : network)
        (text : string) (age : Z) (resp : DosageResponse) :
  dosage_alternatives ner net text age = Ok resp ->
  Forall (fun e => dosage_status e = dosage_status_of age text
                   /\ dosage_rule age text (dosage_status e))
         (results resp).
Proof.
  intros H. apply dosage_alternatives_entries in H.
  eapply Forall_impl; [|exact H].
  intros e (_ & _ & _ & Hs). split; [exact Hs|].
  rewrite Hs. apply dosage_status_of_rule.
Qed.

Lemma dosage_status_fixed_rule_witness :
  Forall (fun e => dosage_status e = dosage_status_of 70 "Paracetamol 500mg daily"
                   /\ dosage_rule 70 "Paracetamol 500mg daily" (dosage_status e))
         [{| drug := "Paracetamol"; rxcui := PStr "161";
             dosage_forms := [PStr "Oral Tablet"];
             alternatives := [PStr "Oral Tablet"];
             dosage_status := "Monitor closely for elderly patients." |};
          {| drug := "Warfarin"; rxcui := PStr "11289";
             dosage_forms := [PStr "Oral Tablet"];
             alternatives := [PStr "Oral Tablet"];
             dosage_status := "Monitor closely for elderly patients." |}].
Proof.
  apply (@dosage_status_fixed_rule query_hugging_face_ner sample_net
           "Paracetamol 500mg daily" 70
           {| dosage_message := DOSAGE_CHECKED;
              results :=
                [{| drug := "Paracetamol"; rxcui := PStr "161";
                    dosage_forms := [PStr "Oral Tablet"];
                    alternatives := [PStr "Oral Tablet"];
                    dosage_status := "Monitor closely for elderly patients." |};
                 {| drug := "Warfarin"; rxcui := PStr "11289";
                    dosage_forms := [PStr "Oral Tablet"];
                    alternatives := [PStr "Oral Tablet"];
                    dosage_status := "Monitor closely for elderly patients." |}] |}).
  reflexivity.
Defined.

(** C9. A mention whose lookup returns [None] has no entry in the
    results of [dosage_alternatives]; when every mention of a non-empty
    extraction resolves to [None], the endpoint returns the success
    message with an empty results list. *)
Theorem unresolved_drug_has_no_entry
        (ner : string -> list string) (net : network)
        (text : string) (age : Z) (d : string) :
  get_rxcui net d = Ok PNone ->
  (forall resp, dosage_alternatives ner net text age = Ok resp ->
                forall e, In e (results resp) -> drug e <> d) /\
  (ner text <> [] ->
   (forall d', In d' (ner text) -> get_rxcui net d' = Ok PNone) ->
   dosage_alternatives ner net text age
     = Ok {| dosage_message := DOSAGE_CHECKED; results := [] |}).
Proof.
  intros Hd. split.
  - intros resp H e He Heq. apply dosage_alternatives_entries in H.
    rewrite Forall_forall in H. destruct (H e He) as (_ & Hr & Ht & _).
    rewrite Heq, Hd in Hr. injection Hr as Hr. rewrite <- Hr in Ht. discriminate.
  - intros Hne Hall. unfold dosage_alternatives.
    destruct (ner text) as [|d0 ds] eqn:E; [congruence|].
    rewrite (dosage_loop_unresolved net age text (d0 :: ds) [] Hall). reflexivity.
Qed.

Lemma unresolved_drug_has_no_entry_witness :
  (forall resp,
      dosage_alternatives (fun _ => ["Paracetamol"; "Aspirine"]) sample_net
                          "Paracetamol and Aspirine" 40 = Ok resp ->
      forall e, In e (results resp) -> drug e <> "Aspirine") /\
  dosage_alternatives query_hugging_face_ner no_match_net
                      "Paracetamol and Warfarin" 40
    = Ok {| dosage_message := DOSAGE_CHECKED; results := [] |}.
Proof.
  split.
  - apply (@unresolved_drug_has_no_entry
             (fun _ => ["Paracetamol"; "Aspirine"]) sample_net
             "Paracetamol and Aspirine" 40 "Aspirine").
    reflexivity.
  - apply (@unresolved_drug_has_no_entry
             query_hugging_face_ner no_match_net
             "Paracetamol and Warfarin" 40 "Paracetamol").
    + reflexivity.
    + discriminate.
    + intros d' _. reflexivity.
Defined.

(* ================================================================= *)
(** ** The RxNorm helpers *)

Lemma py_in_errors (k : string) (v : pyval) : only_lookup_errors (py_in k v).
Proof. destruct v; exact I. Qed.

Lemma py_getitem_errors (v : pyval) (k : string) : only_lookup_errors (py_getitem v k).
Proof. destruct v; try exact I. cbn. destruct (assoc k kv); exact I. Qed.

Lemma py_getitem0_errors (v : pyval) : only_lookup_errors (py_getitem0 v).
Proof. destruct v as [| | |s|l|kv]; try exact I; [destruct s | destruct l]; exact I. Qed.

Lemma py_iter_errors (v : pyval) : only_lookup_errors (py_iter v).
Proof. destruct v; exact I. Qed.

Lemma bind_errors {A B} (r : result A) (k : A -> result B) :
  only_lookup_errors r -> (forall a, only_lookup_errors (k a)) ->
  only_lookup_errors (bind r k).
Proof. destruct r; cbn; auto. Qed.

Lemma mapM_errors {A B} (f : A -> result B) (xs : list A) :
  (forall x, only_lookup_errors (f x)) -> only_lookup_errors (mapM f xs).
Proof.
  intros Hf. induction xs as [|x xs IH]; cbn [mapM]; [exact I|].
  apply bind_errors; [apply Hf|]. intros y.
  apply bind_errors; [exact IH|]. intros ys. exact I.
Qed.

Lemma has_concept_group_errors (data : pyval) : only_lookup_errors (has_concept_group data).
Proof.
  unfold has_concept_group. apply bind_errors; [apply py_in_errors|].
  intros [|]; [|exact I].
  apply bind_errors; [apply py_getitem_errors | intros g; apply py_in_errors].
Qed.

Lemma concept_properties_errors (data : pyval) : only_lookup_errors (concept_properties data).
Proof.
  unfold concept_properties.
  repeat (apply bind_errors;
          [first [apply py_getitem_errors | apply py_getitem0_errors] | intros ?]).
  apply py_getitem_errors.
Qed.

Lemma concept_names_errors (props : pyval) : only_lookup_errors (concept_names props).
Proof.
  unfold concept_names. apply bind_errors; [apply py_iter_errors|].
  intros cs. apply mapM_errors. intros c. apply py_getitem_errors.
Qed.

Lemma bind_transport {A B} (r : result A) (k : A -> result B) :
  lookup_or_transport_errors r -> (forall a, lookup_or_transport_errors (k a)) ->
  lookup_or_transport_errors (bind r k).
Proof. destruct r; cbn; auto. Qed.

Lemma lookup_is_transport {A} (r : result A) :
  only_lookup_errors r -> lookup_or_transport_errors r.
Proof. destruct r; cbn; auto. Qed.

Lemma fetch_transport (net : network) (r : request) :
  lookup_or_transport_errors (fetch net r).
Proof. unfold fetch. destruct (net r); cbn; auto. Qed.

Lemma try_except_errors {A} (body handler : result A) :
  lookup_or_transport_errors body -> only_lookup_errors handler ->
  only_lookup_errors (try_except_request body handler).
Proof.
  destruct body as [a|e]; cbn; [auto|].
  intros [-> | He] Hh; [exact Hh|]. destruct e; cbn in He |- *; tauto.
Qed.

Lemma related_names_transport (net : network) (x : pyval) (tty : string) :
  lookup_or_transport_errors
    (data <- fetch net (Related x tty) ;;
     c <- has_concept_group data ;;
     if c then props <- concept_properties data ;; concept_names props else Ok []).
Proof.
  apply bind_transport; [apply fetch_transport|]. intros data.
  apply lookup_is_transport.
  apply bind_errors; [apply has_concept_group_errors|]. intros [|]; [|exact I].
  apply bind_errors; [apply concept_properties_errors | intros; apply concept_names_errors].
Qed.

Lemma get_rxcui_errors (net : network) (name : string) :
  only_lookup_errors (get_rxcui net name).
Proof.
  unfold get_rxcui. apply try_except_errors; [|exact I].
  apply bind_transport; [apply fetch_transport|]. intros data.
  apply lookup_is_transport.
  apply bind_errors; [apply py_in_errors|]. intros c1.
  apply bind_errors.
  - destruct c1; [|exact I].
    apply bind_errors; [apply py_getitem_errors | intros; apply py_in_errors].
  - intros [|]; [|exact I].
    repeat (apply bind_errors; [apply py_getitem_errors | intros ?]).
    apply py_getitem0_errors.
Qed.

Lemma get_dosage_forms_errors (net : network) (x : pyval) :
  only_lookup_errors (get_dosage_forms net x).
Proof.
  unfold get_dosage_forms. apply try_except_errors; [|exact I].
  apply related_names_transport.
Qed.

Lemma get_alternatives_errors (net : network) (x : pyval) :
  only_lookup_errors (get_alternatives net x).
Proof.
  unfold get_alternatives. apply bind_errors.
  - apply try_except_errors; [|exact I].
    apply bind_transport; [apply fetch_transport|]. intros data.
    apply lookup_is_transport.
    apply bind_errors; [apply has_concept_group_errors|]. intros [|]; [|exact I].
    apply bind_errors; [apply concept_properties_errors|]. intros props.
    apply bind_errors; [apply py_getitem0_errors|]. intros p0.
    apply bind_errors; [apply py_getitem_errors|]. intros i. exact I.
  - intros [i|]; [|exact I]. destruct (negb (truthy i)); [exact I|].
    apply try_except_errors; [|exact I]. apply related_names_transport.
Qed.

(** X1. No transport exception leaves the three RxNorm helpers: each of
    [get_rxcui], [get_dosage_forms] and [get_alternatives] returns, or
    raises [KeyError], [IndexError] or [TypeError] from reading the
    body. *)
Theorem rxnorm_helpers_contain_transport_errors (net : network) (name : string) (x : pyval) :
  only_lookup_errors (get_rxcui net name) /\
  only_lookup_errors (get_dosage_forms net x) /\
  only_lookup_errors (get_alternatives net x) /\
  get_rxcui net name <> Raise RequestException /\
  get_dosage_forms net x <> Raise RequestException /\
  get_alternatives net x <> Raise RequestException.
Proof.
  pose proof (get_rxcui_errors net name) as H1.
  pose proof (get_dosage_forms_errors net x) as H2.
  pose proof (get_alternatives_errors net x) as H3.
  repeat split; trivial; intros E;
    [rewrite E in H1 | rewrite E in H2 | rewrite E in H3]; contradiction.
Qed.

(** X2. When the body lists identifiers under [idGroup.rxnormId],
    [get_rxcui] returns the first one listed. *)
Theorem get_rxcui_returns_first_identifier (net : network) (name : string)
        (kv g : list (string * pyval)) (v : pyval) (ids : list pyval) :
  net (RxcuiByName name) = Body (PDict kv) ->
  assoc "idGroup" kv = Some (PDict g) ->
  assoc "rxnormId" g = Some (PList (v :: ids)) ->
  get_rxcui net name = Ok v.
Proof.
  intros Hn Hk Hg. unfold get_rxcui, fetch. rewrite Hn. cbn -[assoc].
  rewrite Hk. cbn -[assoc]. rewrite Hg. cbn -[assoc].
  destruct v; reflexivity.
Qed.

Lemma get_rxcui_returns_first_identifier_witness :
  get_rxcui (fun _ => id_body [PStr "161"; PStr "202433"]) "Paracetamol" = Ok (PStr "161").
Proof.
  apply (@get_rxcui_returns_first_identifier
           (fun _ => id_body [PStr "161"; PStr "202433"]) "Paracetamol"
           [("idGroup", PDict [("rxnormId", PList [PStr "161"; PStr "202433"])])]
           [("rxnormId", PList [PStr "161"; PStr "202433"])]
           (PStr "161") [PStr "202433"]); reflexivity.
Defined.

Lemma mapM_names (props names : list pyval) :
  Forall2 named props names ->
  mapM (fun concept => py_getitem concept "name") props = Ok names.
Proof.
  induction 1 as [|p n ps ns [kv [-> Hn]] _ IH]; cbn -[assoc]; [reflexivity|].
  rewrite Hn. cbn -[assoc]. now rewrite IH.
Qed.

Lemma has_concept_group_listed (kv g : list (string * pyval)) (cg : pyval) :
  assoc "relatedGroup" kv = Some (PDict g) ->
  assoc "conceptGroup" g = Some cg ->
  has_concept_group (PDict kv) = Ok true.
Proof.
  intros Hk Hg. unfold has_concept_group. cbn -[assoc].
  rewrite Hk. cbn -[assoc]. now rewrite Hg.
Qed.

Lemma has_concept_group_absent (r : response) (data : pyval) :
  no_concept_group r -> r = Body data -> has_concept_group data = Ok false.
Proof.
  intros [[kv [-> Hk]] | [kv [g [-> [Hk Hg]]]]] E; injection E as <-;
    unfold has_concept_group; cbn -[assoc]; rewrite Hk; cbn -[assoc];
    [reflexivity | now rewrite Hg].
Qed.

(** X3. On a connection failure, an error status or an undecodable
    body, and on a body without [relatedGroup] or without
    [conceptGroup], [get_dosage_forms] returns the empty list. *)
Theorem dosage_forms_empty_on_failure (net : network) (x : pyval) :
  transport_failed (net (Related x "SCD")) \/
  no_concept_group (net (Related x "SCD")) ->
  get_dosage_forms net x = Ok [].
Proof.
  unfold get_dosage_forms, fetch. intros [[H | [H | H]] | H];
    try (rewrite H; reflexivity).
  destruct (net (Related x "SCD")) as [| | |data] eqn:E;
    try (destruct H as [[kv [H _]] | [kv [g [H _]]]]; discriminate).
  cbn [bind]. now rewrite (has_concept_group_absent H eq_refl).
Qed.

Lemma dosage_forms_empty_on_failure_witness :
  get_dosage_forms no_match_net (PStr "161") = Ok [] /\
  get_dosage_forms (fun _ => no_match_body) (PStr "161") = Ok [].
Proof.
  split.
  - apply (@dosage_forms_empty_on_failure no_match_net (PStr "161")).
    left. left. reflexivity.
  - apply (@dosage_forms_empty_on_failure (fun _ => no_match_body) (PStr "161")).
    right. left. exists [("idGroup", PDict [])]. split; reflexivity.
Defined.

Lemma related_names_listed (net : network) (r : request) (props : pyval) :
  concept_body props (net r) ->
  (data <- fetch net r ;;
   c <- has_concept_group data ;;
   if c then props <- concept_properties data ;; concept_names props else Ok [])
  = concept_names props.
Proof.
  intros [c0 [rest [[kv [g [Hn [Hk Hg]]]] Hp]]]. unfold fetch. rewrite Hn.
  cbn [bind]. rewrite (has_concept_group_listed _ Hk Hg). cbn [bind].
  unfold concept_properties. cbn -[assoc]. rewrite Hk. cbn -[assoc].
  rewrite Hg. cbn -[assoc]. rewrite Hp. reflexivity.
Qed.

(** X4. When the first concept group of the body lists concepts that
    all carry a name, [get_dosage_forms] returns those names, one per
    concept and in the order of the body. *)
Theorem dosage_forms_names_in_order (net : network) (x : pyval)
        (props names : list pyval) :
  concept_body (PList props) (net (Related x "SCD")) ->
  Forall2 named props names ->
  get_dosage_forms net x = Ok names /\ length names = length props.
Proof.
  intros Hb Hn. split; [|symmetry; eapply Forall2_length; eassumption].
  unfold get_dosage_forms. rewrite (related_names_listed _ _ Hb).
  unfold concept_names. cbn [py_iter bind]. now rewrite (mapM_names Hn).
Qed.

Lemma dosage_forms_names_in_order_witness :
  get_dosage_forms (fun _ => related_body ["Oral Tablet"; "Oral Solution"]) (PStr "161")
    = Ok [PStr "Oral Tablet"; PStr "Oral Solution"] /\
  length [PStr "Oral Tablet"; PStr "Oral Solution"] = 2%nat.
Proof.
  apply (@dosage_forms_names_in_order
           (fun _ => related_body ["Oral Tablet"; "Oral Solution"]) (PStr "161")
           [PDict [("rxcui", PStr "1"); ("name", PStr "Oral Tablet")];
            PDict [("rxcui", PStr "1"); ("name", PStr "Oral Solution")]]
           [PStr "Oral Tablet"; PStr "Oral Solution"]).
  - eexists _, _. split; [eexists _, _; repeat split | reflexivity].
  - repeat constructor; eexists; split; reflexivity.
Defined.

(** X5. A body whose concept group list is empty makes
    [get_dosage_forms] raise [IndexError]; a body whose first concept
    group has no [conceptProperties] (the answer for an identifier
    without concepts of the requested type) makes it raise
    [KeyError]. *)
Theorem dosage_forms_raises_without_properties (net : network) (x : pyval)
        (cg : list pyval) :
  concept_groups cg (net (Related x "SCD")) ->
  (cg = [] -> get_dosage_forms net x = Raise IndexError) /\
  (forall c0 rest, cg = PDict c0 :: rest ->
                   assoc "conceptProperties" c0 = None ->
                   get_dosage_forms net x = Raise (KeyError "conceptProperties")).
Proof.
  intros [kv [g [Hn [Hk Hg]]]].
  assert (E : get_dosage_forms net x =
              try_except_request
                (props <- concept_properties (PDict kv) ;; concept_names props) (Ok [])).
  { unfold get_dosage_forms, fetch. rewrite Hn. cbn [bind].
    now rewrite (has_concept_group_listed _ Hk Hg). }
  rewrite E. unfold concept_properties. cbn -[assoc]. rewrite Hk. cbn -[assoc].
  rewrite Hg. split.
  - intros ->. reflexivity.
  - intros c0 rest -> Hc. cbn -[assoc]. rewrite Hc. reflexivity.
Qed.

Lemma dosage_forms_raises_without_properties_witness :
  get_dosage_forms no_concepts_net (PStr "161") = Raise (KeyError "conceptProperties").
Proof.
  destruct (@dosage_forms_raises_without_properties
              no_concepts_net (PStr "161") [PDict [("tty", PStr "SCD")]]) as [_ H].
  - eexists _, _. repeat split.
  - apply (H [("tty", PStr "SCD")] []); reflexivity.
Defined.

(** X6. When the ingredient request fails in transport, or its body has
    no [relatedGroup] or no [conceptGroup], [get_alternatives] returns
    the empty list, whatever the service would answer to any other
    request. *)
Theorem alternatives_empty_without_ingredient (net : network) (x : pyval) :
  transport_failed (net (Related x "IN")) \/
  no_concept_group (net (Related x "IN")) ->
  get_alternatives net x = Ok [].
Proof.
  unfold get_alternatives, fetch. intros [[H | [H | H]] | H];
    try (rewrite H; reflexivity).
  destruct (net (Related x "IN")) as [| | |data] eqn:E;
    try (destruct H as [[kv [H _]] | [kv [g [H _]]]]; discriminate).
  cbn [bind]. now rewrite (has_concept_group_absent H eq_refl).
Qed.

Lemma alternatives_empty_without_ingredient_witness :
  get_alternatives no_match_net (PStr "161") = Ok [].
Proof.
  apply (@alternatives_empty_without_ingredient no_match_net (PStr "161")).
  left. left. reflexivity.
Defined.

(** X7. When the ingredient request names an ingredient identifier,
    [get_alternatives] is the list [get_dosage_forms] would compute for
    that ingredient from the branded-drug answers, and the empty list
    when the ingredient identifier is falsy. *)
Theorem alternatives_from_ingredient_brands (net : network) (x i : pyval)
        (p0 : list (string * pyval)) (ps : list pyval) :
  concept_body (PList (PDict p0 :: ps)) (net (Related x "IN")) ->
  assoc "rxcui" p0 = Some i ->
  get_alternatives net x
    = if truthy i then get_dosage_forms (as_SBD net) i else Ok [].
Proof.
  intros [c0 [rest [[kv [g [Hn [Hk Hg]]]] Hp]]] Hi.
  unfold get_alternatives, fetch. rewrite Hn. cbn [bind].
  rewrite (has_concept_group_listed _ Hk Hg). cbn [bind].
  unfold concept_properties. cbn -[assoc]. rewrite Hk. cbn -[assoc].
  rewrite Hg. cbn -[assoc]. rewrite Hp. cbn -[assoc]. rewrite Hi.
  cbn -[assoc truthy]. destruct (truthy i); reflexivity.
Qed.

Lemma alternatives_from_ingredient_brands_witness :
  get_alternatives ingredient_net (PStr "202433")
    = get_dosage_forms (as_SBD ingredient_net) (PStr "161") /\
  get_dosage_forms (as_SBD ingredient_net) (PStr "161")
    = Ok [PStr "Tylenol"; PStr "Panadol"].
Proof.
  split; [|reflexivity].
  apply (@alternatives_from_ingredient_brands ingredient_net (PStr "202433") (PStr "161")
           [("rxcui", PStr "161"); ("name", PStr "Acetaminophen")] []).
  - eexists _, _. split; [eexists _, _; repeat split | reflexivity].
  - reflexivity.
Defined.

(* ================================================================= *)
(** ** More on the interaction search *)

(** X8. The masked selection of [check_interactions] for a pair of
    scalar identifiers, row by row: it
    raises [KeyError] for [RxCUI_1] when that label is missing, for
    [RxCUI_2] when only that one is, and otherwise keeps, in table
    order, exactly the rows whose two identifier cells equal the pair in
    one of the two orders. *)
Theorem pair_lookup_row_by_row (df : DataFrame) (x y : pyval) :
  is_scalar x = true ->
  is_scalar y = true ->
  pair_lookup df x y =
  match index_of "RxCUI_1" (columns df), index_of "RxCUI_2" (columns df) with
  | Some i1, Some i2 =>
      Ok {| columns := columns df;
            rows := filter (fun r => pair_match (cell i1 r) (cell i2 r) x y) (rows df) |}
  | None, _ => Raise (KeyError "RxCUI_1")
  | Some _, None => Raise (KeyError "RxCUI_2")
  end.
Proof. intros _ _. apply pair_lookup_rows. Qed.

Lemma pair_lookup_row_by_row_witness :
  pair_lookup sample_ddi (PStr "11289") (PStr "161")
  = Ok {| columns := DDI_COLUMNS; rows := [sample_row] |} /\
  pair_lookup empty_DataFrame (PStr "11289") (PStr "161") = Raise (KeyError "RxCUI_1").
Proof.
  split.
  - apply (@pair_lookup_row_by_row sample_ddi (PStr "11289") (PStr "161"));
      reflexivity.
  - apply (@pair_lookup_row_by_row empty_DataFrame (PStr "11289") (PStr "161"));
      reflexivity.
Defined.

Lemma has_ddi_columns_indices (df : DataFrame) :
  has_ddi_columns df ->
  exists d1 d2 i1 i2 ds,
    index_of "Drug 1" (columns df) = Some d1 /\
    index_of "Drug 2" (columns df) = Some d2 /\
    index_of "RxCUI_1" (columns df) = Some i1 /\
    index_of "RxCUI_2" (columns df) = Some i2 /\
    index_of "Interaction Description" (columns df) = Some ds.
Proof.
  unfold has_ddi_columns, DDI_COLUMNS. intros H.
  repeat match goal with
         | H : Forall _ (_ :: _) |- _ => inversion_clear H
         end.
  destruct (index_of "Drug 1" (columns df)) as [d1|]; [|congruence].
  destruct (index_of "Drug 2" (columns df)) as [d2|]; [|congruence].
  destruct (index_of "RxCUI_1" (columns df)) as [i1|]; [|congruence].
  destruct (index_of "RxCUI_2" (columns df)) as [i2|]; [|congruence].
  destruct (index_of "Interaction Description" (columns df)) as [ds|]; [|congruence].
  now exists d1, d2, i1, i2, ds.
Qed.

(** With the five labels present, a row becomes an entry when its
    description is a string and raises [AttributeError] otherwise. *)
Lemma interaction_of_row_outcome (df : DataFrame) (row : list pyval) :
  has_ddi_columns df ->
  if is_PStr (description_cell df row)
  then exists e, interaction_of_row (columns df) row = Ok e
  else interaction_of_row (columns df) row = Raise AttributeError.
Proof.
  intros H. destruct (has_ddi_columns_indices H)
    as (d1 & d2 & i1 & i2 & ds & H1 & H2 & H3 & H4 & H5).
  unfold description_cell, interaction_of_row, row_get. rewrite H1, H2, H3, H4, H5.
  cbn [bind]. destruct (cell ds row); cbn; try reflexivity. eexists. reflexivity.
Qed.

Lemma pair_lookup_matches (df : DataFrame) (x y : pyval) :
  index_of "RxCUI_1" (columns df) <> None ->
  index_of "RxCUI_2" (columns df) <> None ->
  pair_lookup df x y
  = Ok {| columns := columns df;
          rows := filter (fun r => row_matches df r x y) (rows df) |}.
Proof.
  intros H1 H2. rewrite pair_lookup_rows. unfold row_matches, id_cells.
  destruct (index_of "RxCUI_1" (columns df)); [|congruence].
  destruct (index_of "RxCUI_2" (columns df)); [|congruence]. reflexivity.
Qed.

Lemma mapM_total {A B} (f : A -> result B) (xs : list A) :
  (forall x, In x xs -> exists y, f x = Ok y) ->
  exists ys, mapM f xs = Ok ys /\
             forall x, In x xs -> exists y, In y ys /\ f x = Ok y.
Proof.
  induction xs as [|x xs IH]; intros H; cbn [mapM].
  - exists []. split; [reflexivity | intros x []].
  - destruct (H x (or_introl eq_refl)) as [y Hy].
    destruct IH as [ys [Hys Hall]]; [intros x' Hx'; apply H; now right|].
    rewrite Hy, Hys. cbn [bind]. exists (y :: ys). split; [reflexivity|].
    intros x' [<- | Hx'].
    + exists y. split; [now left | exact Hy].
    + destruct (Hall x' Hx') as [y' [Hin Hy']]. exists y'. split; [now right | exact Hy'].
Qed.

Lemma mapM_raises {A B} (f : A -> result B) (xs : list A) (x0 : A) (e0 : exn) :
  (forall x, In x xs -> f x = Raise e0 \/ exists y, f x = Ok y) ->
  In x0 xs -> f x0 = Raise e0 ->
  mapM f xs = Raise e0.
Proof.
  induction xs as [|x xs IH]; intros H Hin H0; [destruct Hin|]. cbn [mapM].
  destruct (H x (or_introl eq_refl)) as [Hx | [y Hy]]; [now rewrite Hx|].
  rewrite Hy. cbn [bind]. destruct Hin as [-> | Hin]; [congruence|].
  rewrite IH; trivial. intros x' Hx'. apply H. now right.
Qed.

Lemma in_queried_pairs (found : list pyval) (i j : nat) :
  (i < j /\ j < length found)%nat ->
  In (nth i found PNone, nth j found PNone) (queried_pairs found).
Proof.
  intros H. unfold queried_pairs. apply in_map_iff. exists (i, j).
  split; [reflexivity | now apply in_index_pairs].
Qed.

(** X9. On a table that has the five labels and a string in every
    description cell, the interaction search returns for any list of
    scalar identifiers, and every stored row whose identifier cells equal the
    identifiers at two positions i < j (in either order) has an entry
    copied from it in the result. *)
Theorem well_formed_table_reports_every_match (df : DataFrame) (found : list pyval) :
  has_ddi_columns df ->
  Forall (fun row => is_PStr (description_cell df row) = true) (rows df) ->
  Forall (fun v => is_scalar v = true) found ->
  exists resp,
    find_interactions df found = Ok resp /\
    forall i j row,
      (i < j /\ j < length found)%nat ->
      In row (rows df) ->
      row_matches df row (nth i found PNone) (nth j found PNone) = true ->
      exists e, In e (interactions resp) /\ copied_from (columns df) row e.
Proof.
  intros Hc Hd _.
  destruct (has_ddi_columns_indices Hc)
    as (d1 & d2 & i1 & i2 & ds & _ & _ & H3 & H4 & _).
  assert (Hpair : forall p,
             exists es, pair_interactions df p = Ok es /\
                        forall row, In row (rows df) ->
                                    row_matches df row (fst p) (snd p) = true ->
                                    exists e, In e es /\ copied_from (columns df) row e).
  { intros p. unfold pair_interactions.
    rewrite pair_lookup_matches by congruence. cbn [bind columns rows].
    destruct (@mapM_total _ _ (interaction_of_row (columns df))
                (filter (fun r => row_matches df r (fst p) (snd p)) (rows df)))
      as [es [Hes Hall]].
    - intros row Hrow. apply filter_In in Hrow as [Hrow _].
      pose proof (interaction_of_row_outcome row Hc) as Ho.
      rewrite Forall_forall in Hd. now rewrite (Hd row Hrow) in Ho.
    - exists es. split; [exact Hes|]. intros row Hrow Hm.
      destruct (Hall row) as [e [He Hrow']]; [apply filter_In; now split|].
      exists e. split; [exact He | now apply interaction_of_row_copies]. }
  unfold find_interactions.
  destruct (Nat.ltb_spec (length found) 2) as [Hlt|Hge].
  - eexists. split; [reflexivity|]. intros i j row Hij. lia.
  - destruct (@mapM_total _ _ (pair_interactions df) (queried_pairs found))
      as [per [Hper Hall]].
    + intros p _. destruct (Hpair p) as [es [Hes _]]. now exists es.
    + rewrite Hper. cbn [bind]. eexists. split; [reflexivity|].
      cbn [interactions]. intros i j row Hij Hrow Hm.
      destruct (Hall _ (in_queried_pairs found Hij)) as [es [Hin Hes]].
      destruct (Hpair (nth i found PNone, nth j found PNone)) as [es' [Hes' Hrows]].
      rewrite Hes in Hes'. injection Hes' as <-.
      destruct (Hrows row Hrow Hm) as [e [He Hcopy]].
      exists e. split; [|exact Hcopy]. apply in_concat. now exists es.
Qed.

Lemma well_formed_table_reports_every_match_witness :
  exists resp,
    find_interactions sample_ddi [PStr "11289"; PStr "1191"; PStr "161"] = Ok resp /\
    forall i j row,
      (i < j /\ j < 3)%nat ->
      In row (rows sample_ddi) ->
      row_matches sample_ddi row
        (nth i [PStr "11289"; PStr "1191"; PStr "161"] PNone)
        (nth j [PStr "11289"; PStr "1191"; PStr "161"] PNone) = true ->
      exists e, In e (interactions resp) /\ copied_from (columns sample_ddi) row e.
Proof.
  apply (@well_formed_table_reports_every_match
           sample_ddi [PStr "11289"; PStr "1191"; PStr "161"]).
  - repeat constructor; discriminate.
  - repeat constructor.
  - repeat constructor.
Defined.

(** X10. On a table with the five labels, a stored row that matches the
    first pair of identifiers and whose description is not a string (a
    missing cell) makes the whole search raise [AttributeError]. *)
Theorem missing_description_fails_search (df : DataFrame) (row : list pyval)
        (x y : pyval) (r : list pyval) :
  has_ddi_columns df ->
  In row (rows df) ->
  row_matches df row x y = true ->
  is_PStr (description_cell df row) = false ->
  find_interactions df (x :: y :: r) = Raise AttributeError.
Proof.
  intros Hc Hrow Hm Hd.
  destruct (has_ddi_columns_indices Hc)
    as (d1 & d2 & i1 & i2 & ds & _ & _ & H3 & H4 & _).
  unfold find_interactions. cbn [length Nat.ltb Nat.leb].
  destruct (queried_pairs_head x y r) as [qs ->]. cbn [mapM].
  assert (E : pair_interactions df (x, y) = Raise AttributeError).
  { unfold pair_interactions. rewrite pair_lookup_matches by congruence.
    cbn [bind columns rows fst snd].
    apply (@mapM_raises _ _ _ _ row).
    - intros row' _. pose proof (interaction_of_row_outcome row' Hc) as Ho.
      destruct (is_PStr (description_cell df row')); [now right | now left].
    - apply filter_In. now split.
    - pose proof (interaction_of_row_outcome row Hc) as Ho. now rewrite Hd in Ho. }
  now rewrite E.
Qed.

Lemma missing_description_fails_search_witness :
  find_interactions undescribed_ddi [PStr "161"; PStr "11289"] = Raise AttributeError.
Proof.
  apply (@missing_description_fails_search undescribed_ddi
           [PStr "Paracetamol"; PStr "Warfarin"; PStr "161"; PStr "11289"; PNone]
           (PStr "161") (PStr "11289") []).
  - repeat constructor; discriminate.
  - left. reflexivity.
  - reflexivity.
  - reflexivity.
Defined.

(** X11. An identifier that occurs twice makes the search report the
    interactions of its pair with another identifier twice: over
    [x; y; x] the result is the entries of (x, y), then those of
    (x, x), then those of (x, y) again. *)
Theorem repeated_identifier_repeats_entries (df : DataFrame) (x y : pyval)
        (es s : list Interaction) :
  pair_interactions df (x, y) = Ok es ->
  pair_interactions df (x, x) = Ok s ->
  find_interactions df [x; y; x]
    = Ok {| message := CHECKED; interactions := (es ++ s ++ es)%list |}.
Proof.
  intros Hxy Hxx. unfold find_interactions, queried_pairs, index_pairs.
  cbn [length Nat.ltb Nat.leb seq flat_map Nat.add Nat.sub map app fst snd nth mapM].
  rewrite Hxy, Hxx, (pair_interactions_sym df y x), Hxy. cbn [bind concat].
  now rewrite app_nil_r.
Qed.

Lemma repeated_identifier_repeats_entries_witness :
  find_interactions sample_ddi [PStr "161"; PStr "11289"; PStr "161"]
    = Ok {| message := CHECKED;
            interactions :=
              [{| drug1 := PStr "Paracetamol"; drug2 := PStr "Warfarin";
                  rxcui1 := PStr "161"; rxcui2 := PStr "11289";
                  description := PStr "May increase risk of bleeding";
                  alert := SEVERE_ALERT |};
               {| drug1 := PStr "Paracetamol"; drug2 := PStr "Warfarin";
                  rxcui1 := PStr "161"; rxcui2 := PStr "11289";
                  description := PStr "May increase risk of bleeding";
                  alert := SEVERE_ALERT |}] |}.
Proof.
  apply (@repeated_identifier_repeats_entries sample_ddi (PStr "161") (PStr "11289")
           [{| drug1 := PStr "Paracetamol"; drug2 := PStr "Warfarin";
               rxcui1 := PStr "161"; rxcui2 := PStr "11289";
               description := PStr "May increase risk of bleeding";
               alert := SEVERE_ALERT |}] []); reflexivity.
Defined.

Lemma filter_none {A} (f : A -> bool) (l : list A) :
  (forall x, In x l -> f x = false) -> filter f l = [].
Proof.
  induction l as [|x l IH]; intros H; cbn; [reflexivity|].
  rewrite (H x (or_introl eq_refl)). apply IH. intros y Hy. apply H. now right.
Qed.

(** X12. A table whose [RxCUI_1] cells are all integers never matches
    identifiers that are strings: the search over any list of string
    identifiers returns no interaction. *)
Theorem integer_cells_never_match_strings (df : DataFrame) (i1 i2 : nat)
        (found : list pyval) :
  index_of "RxCUI_1" (columns df) = Some i1 ->
  index_of "RxCUI_2" (columns df) = Some i2 ->
  Forall (fun row => exists z, cell i1 row = PInt z) (rows df) ->
  Forall (fun v => is_PStr v = true) found ->
  exists m, find_interactions df found = Ok {| message := m; interactions := [] |}.
Proof.
  intros H1 H2 Hrows Hfound. unfold find_interactions.
  destruct (Nat.ltb_spec (length found) 2) as [_|_]; [now eexists|].
  assert (Hp : forall p, In p (queried_pairs found) -> pair_interactions df p = Ok []).
  { intros [a b] Hin. unfold queried_pairs in Hin.
    apply in_map_iff in Hin as [[i j] [Heq Hij]]. apply in_index_pairs in Hij.
    cbn [fst snd] in Heq. injection Heq as <- <-.
    rewrite Forall_forall in Hfound.
    assert (Ha : is_PStr (nth i found PNone) = true) by (apply Hfound, nth_In; lia).
    assert (Hb : is_PStr (nth j found PNone) = true) by (apply Hfound, nth_In; lia).
    unfold pair_interactions. cbn [fst snd]. rewrite pair_lookup_rows, H1, H2.
    cbn [bind columns rows].
    rewrite filter_none; [reflexivity|].
    intros row Hrow. rewrite Forall_forall in Hrows.
    destruct (Hrows row Hrow) as [z ->].
    destruct (nth i found PNone); try discriminate;
      destruct (nth j found PNone); try discriminate. reflexivity. }
  assert (Hall : forall qs, (forall p, In p qs -> pair_interactions df p = Ok []) ->
                 exists ys, mapM (pair_interactions df) qs = Ok ys /\ concat ys = []).
  { induction qs as [|q qs IH]; intros Hq; cbn [mapM].
    - now exists [].
    - rewrite (Hq q (or_introl eq_refl)). cbn [bind].
      destruct IH as [ys [-> Hc]]; [intros p Hin; apply Hq; now right|].
      cbn [bind]. exists ([] :: ys). now split. }
  destruct (Hall _ Hp) as [ys [-> Hc]]. cbn [bind]. rewrite Hc. now eexists.
Qed.

Lemma integer_cells_never_match_strings_witness :
  exists m, find_interactions integer_ddi [PStr "161"; PStr "11289"]
            = Ok {| message := m; interactions := [] |}.
Proof.
  apply (@integer_cells_never_match_strings integer_ddi 2 3 [PStr "161"; PStr "11289"]).
  - reflexivity.
  - reflexivity.
  - repeat constructor. exists 161%Z. reflexivity.
  - repeat constructor.
Defined.

(* ================================================================= *)
(** ** The identifier map *)

Lemma assoc_dict_set_same {V} (d : list (string * V)) (k : string) (v : V) :
  assoc k (dict_set d k v) = Some v.
Proof.
  induction d as [|[k' v'] d IH]; cbn.
  - now rewrite String.eqb_refl.
  - destruct (String.eqb k' k) eqn:E; cbn; rewrite E; [reflexivity | exact IH].
Qed.

Lemma assoc_dict_set_other {V} (d : list (string * V)) (k k' : string) (v : V) :
  k' <> k -> assoc k' (dict_set d k v) = assoc k' d.
Proof.
  intros Hne. induction d as [|[k0 v0] d IH]; cbn.
  - apply String.eqb_neq in Hne. rewrite String.eqb_sym. now rewrite Hne.
  - destruct (String.eqb k0 k) eqn:E; cbn.
    + apply String.eqb_eq in E. subst k0.
      apply not_eq_sym, String.eqb_neq in Hne. now rewrite Hne.
    + now rewrite IH.
Qed.

Lemma dict_set_keys {V} (d : list (string * V)) (k : string) (v : V) :
  map fst (dict_set d k v)
  = if existsb (String.eqb k) (map fst d) then map fst d else (map fst d ++ [k])%list.
Proof.
  induction d as [|[k' v'] d IH]; cbn; [reflexivity|].
  rewrite (String.eqb_sym k k').
  destruct (String.eqb k' k) eqn:E; cbn; [reflexivity|].
  rewrite IH. now destruct (existsb (String.eqb k) (map fst d)).
Qed.

Lemma existsb_eqb_In (k : string) (l : list string) :
  existsb (String.eqb k) l = true <-> In k l.
Proof.
  rewrite existsb_exists. split.
  - intros [x [Hin E]]. apply String.eqb_eq in E. now subst.
  - intros Hin. exists k. split; [exact Hin | apply String.eqb_refl].
Qed.

(** X13. Assignment into the insertion-ordered dict: the assigned key
    reads back the new value, every other key reads as before, a key
    already present keeps its position, and a new key goes last. *)
Theorem dict_set_lookup {V : Type} (d : list (string * V)) (k : string) (v : V) :
  assoc k (dict_set d k v) = Some v /\
  (forall k', k' <> k -> assoc k' (dict_set d k v) = assoc k' d) /\
  (In k (map fst d) -> map fst (dict_set d k v) = map fst d) /\
  (~ In k (map fst d) -> map fst (dict_set d k v) = (map fst d ++ [k])%list).
Proof.
  split; [apply assoc_dict_set_same|].
  split; [intros k'; apply assoc_dict_set_other|].
  rewrite dict_set_keys. split; intros H.
  - apply existsb_eqb_In in H. now rewrite H.
  - destruct (existsb (String.eqb k) (map fst d)) eqn:E; [|reflexivity].
    apply existsb_eqb_In in E. contradiction.
Qed.

Lemma dict_set_lookup_witness :
  assoc "Warfarin" (dict_set [("Paracetamol", PStr "161"); ("Warfarin", PNone)]
                             "Warfarin" (PStr "11289")) = Some (PStr "11289") /\
  map fst (dict_set [("Paracetamol", PStr "161"); ("Warfarin", PNone)]
                    "Warfarin" (PStr "11289")) = ["Paracetamol"; "Warfarin"] /\
  map fst (dict_set [("Paracetamol", PStr "161")] "Warfarin" (PStr "11289"))
    = ["Paracetamol"; "Warfarin"].
Proof.
  destruct (@dict_set_lookup pyval [("Paracetamol", PStr "161"); ("Warfarin", PNone)]
              "Warfarin" (PStr "11289")) as (H1 & _ & H3 & _).
  destruct (@dict_set_lookup pyval [("Paracetamol", PStr "161")]
              "Warfarin" (PStr "11289")) as (_ & _ & _ & H4).
  split; [exact H1|]. split.
  - apply H3. right. left. reflexivity.
  - apply H4. intros [H | []]. discriminate.
Defined.

Lemma rxcui_map_from_invariant (net : network) (l : list string)
      (acc m : list (string * pyval)) :
  NoDup (map fst acc) ->
  Forall (fun kv => get_rxcui net (fst kv) = Ok (snd kv)) acc ->
  rxcui_map_from net acc l = Ok m ->
  NoDup (map fst m) /\
  (forall d, In d (map fst m) <-> In d (map fst acc) \/ In d l) /\
  Forall (fun kv => get_rxcui net (fst kv) = Ok (snd kv)) m.
Proof.
  revert acc. induction l as [|d l IH]; intros acc Hnd Hval H; cbn [rxcui_map_from] in H.
  - injection H as <-. split; [exact Hnd|]. split; [|exact Hval].
    intros d. cbn. tauto.
  - destruct (get_rxcui net d) as [v|] eqn:Ev; [|discriminate]. cbn [bind] in H.
    assert (Hkeys := dict_set_keys acc d v).
    apply IH in H.
    + destruct H as (Hn & Hin & Hv). split; [exact Hn|]. split; [|exact Hv].
      intros d'. rewrite Hin, Hkeys.
      destruct (existsb (String.eqb d) (map fst acc)) eqn:E.
      * apply existsb_eqb_In in E. cbn. split; [tauto|].
        intros [H | [<- | H]]; tauto.
      * rewrite in_app_iff. cbn. tauto.
    + rewrite Hkeys. destruct (existsb (String.eqb d) (map fst acc)) eqn:E; [exact Hnd|].
      apply NoDup_app; [exact Hnd | repeat constructor; intros [] |].
      intros a Ha [<- | []].
      apply existsb_eqb_In in Ha. congruence.
    + clear - Hval Ev. induction acc as [|[k0 v0] acc IHa]; cbn.
      * repeat constructor. exact Ev.
      * inversion_clear Hval as [|? ? H0 Hr].
        destruct (String.eqb k0 d) eqn:E.
        -- apply String.eqb_eq in E. subst k0. constructor; [exact Ev | exact Hr].
        -- constructor; [exact H0 | now apply IHa].
Qed.

(** X14. The identifier map built by [check_interactions] has one key
    per distinct mention, holds exactly the mentions as keys, and maps
    each to what [get_rxcui] returns for it; so a name mentioned twice
    contributes one identifier to the pairwise search. *)
Theorem rxcui_map_one_key_per_mention (net : network) (mentions : list string)
        (m : list (string * pyval)) :
  rxcui_map_from net [] mentions = Ok m ->
  NoDup (map fst m) /\
  (forall d, In d (map fst m) <-> In d mentions) /\
  Forall (fun kv => get_rxcui net (fst kv) = Ok (snd kv)) m /\
  (length (filter is_not_None (map snd m)) <= length m)%nat.
Proof.
  intros H. apply rxcui_map_from_invariant in H as (Hn & Hin & Hv);
    [|constructor|constructor].
  split; [exact Hn|]. split; [|split; [exact Hv|]].
  - intros d. rewrite Hin. cbn. tauto.
  - rewrite <- (length_map snd m). apply filter_length_le.
Qed.

Lemma rxcui_map_one_key_per_mention_witness :
  rxcui_map_from sample_net [] ["Warfarin"; "Paracetamol"; "Warfarin"]
    = Ok [("Warfarin", PStr "11289"); ("Paracetamol", PStr "161")] /\
  NoDup ["Warfarin"; "Paracetamol"].
Proof.
  split; [reflexivity|].
  apply (@rxcui_map_one_key_per_mention sample_net
           ["Warfarin"; "Paracetamol"; "Warfarin"]
           [("Warfarin", PStr "11289"); ("Paracetamol", PStr "161")]).
  reflexivity.
Defined.

(* ================================================================= *)
(** ** Failures inside a request *)

Lemma rxcui_map_from_raises (net : network) (l : list string) (d : string) (e : exn)
      (acc : list (string * pyval)) :
  In d l -> get_rxcui net d = Raise e ->
  exists e', rxcui_map_from net acc l = Raise e'.
Proof.
  revert acc. induction l as [|d0 l IH]; intros acc Hin Hd; [destruct Hin|].
  cbn [rxcui_map_from]. destruct (get_rxcui net d0) as [v|e0] eqn:E0.
  - cbn [bind]. destruct Hin as [-> | Hin]; [congruence|]. now apply IH.
  - now exists e0.
Qed.

Lemma dosage_loop_raises (net : network) (age : Z) (text : string)
      (l : list string) (d : string) (acc : list DosageEntry) :
  In d l ->
  (exists e, get_rxcui net d = Raise e) \/
  (exists v e, get_rxcui net d = Ok v /\ truthy v = true /\
               (get_dosage_forms net v = Raise e \/ get_alternatives net v = Raise e)) ->
  exists e', dosage_loop net age text acc l = Raise e'.
Proof.
  revert acc. induction l as [|d0 l IH]; intros acc Hin Hd; [destruct Hin|].
  cbn [dosage_loop]. destruct (get_rxcui net d0) as [v0|e0] eqn:E0; [|now exists e0].
  cbn [bind]. destruct Hin as [-> | Hin].
  - destruct Hd as [[e He] | (v & e & Hv & Ht & Hf)]; [congruence|].
    rewrite E0 in Hv. injection Hv as ->. rewrite Ht.
    destruct (get_dosage_forms net v) as [fs|ef]; [|now exists ef]. cbn [bind].
    destruct Hf as [Hf | Hf]; [discriminate|]. rewrite Hf. now exists e.
  - destruct (truthy v0); [|now apply IH].
    destruct (get_dosage_forms net v0) as [fs|ef]; [|now exists ef]. cbn [bind].
    destruct (get_alternatives net v0) as [al|ea]; [|now exists ea]. cbn [bind].
    now apply IH.
Qed.

(** X15. One mention whose identifier lookup raises makes both
    endpoints raise: neither returns a partial answer for the other
    mentions. *)
Theorem failed_lookup_fails_both_endpoints
        (ner : string -> list string) (net : network) (df : DataFrame)
        (text : string) (age : Z) (d : string) (e : exn) :
  In d (ner text) ->
  get_rxcui net d = Raise e ->
  (exists e', check_interactions ner net df text = Raise e') /\
  (exists e', dosage_alternatives ner net text age = Raise e').
Proof.
  intros Hin Hd. unfold check_interactions, dosage_alternatives.
  destruct (ner text) as [|d0 ds] eqn:E; [destruct Hin|]. split.
  - destruct (@rxcui_map_from_raises net (d0 :: ds) d e [] Hin Hd) as [e' ->].
    now exists e'.
  - destruct (@dosage_loop_raises net age text (d0 :: ds) d [] Hin) as [e' ->];
      [left; now exists e | now exists e'].
Qed.

Lemma failed_lookup_fails_both_endpoints_witness :
  (exists e', check_interactions query_hugging_face_ner empty_ids_net sample_ddi
                                 "Paracetamol and Warfarin" = Raise e') /\
  (exists e', dosage_alternatives query_hugging_face_ner empty_ids_net
                                  "Paracetamol and Warfarin" 40 = Raise e').
Proof.
  apply (@failed_lookup_fails_both_endpoints query_hugging_face_ner empty_ids_net
           sample_ddi "Paracetamol and Warfarin" 40 "Warfarin" IndexError).
  - right. left. reflexivity.
  - reflexivity.
Defined.

(** X16. In [dosage_alternatives], a resolved mention whose dosage-form
    or alternatives lookup raises makes the endpoint raise; no entry is
    returned for any mention. *)
Theorem failed_forms_lookup_fails_dosage
        (ner : string -> list string) (net : network)
        (text : string) (age : Z) (d : string) (v : pyval) (e : exn) :
  In d (ner text) ->
  get_rxcui net d = Ok v ->
  truthy v = true ->
  get_dosage_forms net v = Raise e \/ get_alternatives net v = Raise e ->
  exists e', dosage_alternatives ner net text age = Raise e'.
Proof.
  intros Hin Hv Ht Hf. unfold dosage_alternatives.
  destruct (ner text) as [|d0 ds] eqn:E; [destruct Hin|].
  destruct (@dosage_loop_raises net age text (d0 :: ds) d [] Hin) as [e' ->].
  - right. now exists v, e.
  - now exists e'.
Qed.

Lemma failed_forms_lookup_fails_dosage_witness :
  exists e', dosage_alternatives query_hugging_face_ner no_concepts_net
                                 "Paracetamol and Warfarin" 40 = Raise e'.
Proof.
  apply (@failed_forms_lookup_fails_dosage query_hugging_face_ner no_concepts_net
           "Paracetamol and Warfarin" 40 "Paracetamol" (PStr "161")
           (KeyError "conceptProperties")).
  - left. reflexivity.
  - reflexivity.
  - reflexivity.
  - left. reflexivity.
Defined.

Lemma dosage_loop_drugs (net : network) (age : Z) (text : string)
      (l : list string) (acc res : list DosageEntry) :
  dosage_loop net age text acc l = Ok res ->
  map drug res = (map drug acc ++ filter (resolves net) l)%list.
Proof.
  revert acc. induction l as [|d l IH]; intros acc H; cbn [dosage_loop] in H.
  - injection H as <-. cbn. now rewrite app_nil_r.
  - cbn [filter]. unfold resolves at 1.
    destruct (get_rxcui net d) as [v|]; [|discriminate]. cbn [bind] in H.
    destruct (truthy v).
    + destruct (get_dosage_forms net v) as [fs|]; [|discriminate]. cbn [bind] in H.
      destruct (get_alternatives net v) as [al|]; [|discriminate]. cbn [bind] in H.
      apply IH in H. rewrite H, map_app. cbn. now rewrite <- app_assoc.
    + now apply IH.
Qed.

(** X17. The results of [dosage_alternatives] follow the mentions: the
    drugs of the entries are the mentions whose identifier is truthy,
    in extraction order, a repeated mention giving a repeated entry. *)
Theorem dosage_entries_follow_mentions
        (ner : string -> list string) (net : network)
        (text : string) (age : Z) (resp : DosageResponse) :
  dosage_alternatives ner net text age = Ok resp ->
  map drug (results resp) = filter (resolves net) (ner text) /\
  (length (results resp) <= length (ner text))%nat.
Proof.
  unfold dosage_alternatives. destruct (ner text) as [|d ds] eqn:E; [discriminate|].
  destruct (dosage_loop net age text [] (d :: ds)) as [res|] eqn:El; [|discriminate].
  cbn [bind]. intros H. injection H as <-. cbn [results].
  apply dosage_loop_drugs in El. cbn [map app] in El. split; [exact El|].
  rewrite <- (length_map drug res), El. apply filter_length_le.
Qed.

Lemma dosage_entries_follow_mentions_witness :
  map drug
      [{| drug := "Warfarin"; rxcui := PStr "11289";
          dosage_forms := [PStr "Oral Tablet"]; alternatives := [PStr "Oral Tablet"];
          dosage_status := "Appropriate" |};
       {| drug := "Warfarin"; rxcui := PStr "11289";
          dosage_forms := [PStr "Oral Tablet"]; alternatives := [PStr "Oral Tablet"];
          dosage_status := "Appropriate" |}]
  = filter (resolves sample_net) ["Warfarin"; "Aspirine"; "Warfarin"] /\
  (2 <= 3)%nat.
Proof.
  apply (@dosage_entries_follow_mentions
           (fun _ => ["Warfarin"; "Aspirine"; "Warfarin"]) sample_net
           "Warfarin, Aspirine, Warfarin" 40
           {| dosage_message := DOSAGE_CHECKED;
              results :=
                [{| drug := "Warfarin"; rxcui := PStr "11289";
                    dosage_forms := [PStr "Oral Tablet"];
                    alternatives := [PStr "Oral Tablet"];
                    dosage_status := "Appropriate" |};
                 {| drug := "Warfarin"; rxcui := PStr "11289";
                    dosage_forms := [PStr "Oral Tablet"];
                    alternatives := [PStr "Oral Tablet"];
                    dosage_status := "Appropriate" |}] |}).
  reflexivity.
Defined.

(* ================================================================= *)
(** ** Keyword tests under context and case *)

Lemma lower_app (a b : string) : lower (a ++ b) = lower a ++ lower b.
Proof. induction a as [|c a IH]; cbn; [reflexivity | now rewrite IH]. Qed.

Lemma lower_ascii_idem (c : ascii) : lower_ascii (lower_ascii c) = lower_ascii c.
Proof. destruct c as [[] [] [] [] [] [] [] []]; reflexivity. Qed.

Lemma lower_idem (s : string) : lower (lower s) = lower s.
Proof.
  induction s as [|c s IH]; cbn; [reflexivity|].
  now rewrite lower_ascii_idem, IH.
Qed.

Lemma occurs_context (k s a b : string) : occurs k s -> occurs k (a ++ s ++ b).
Proof.
  intros [u [v ->]]. exists (a ++ u), (v ++ b).
  induction a as [|c a IH]; cbn.
  - induction u as [|c u IHu]; cbn; [|now rewrite IHu].
    induction k as [|c k IHk]; cbn; [reflexivity | now rewrite IHk].
  - now rewrite IH.
Qed.

(** X18. A description that gets the severe alert keeps it under any
    text put before and after it. *)
Theorem severe_alert_survives_context (d : string) :
  get_ibm_granite_alerts d = SEVERE_ALERT ->
  forall a b, get_ibm_granite_alerts (a ++ d ++ b) = SEVERE_ALERT.
Proof.
  intros H a b. rewrite alerts_classify in H |- *.
  apply (bucket_message_inj _ Severe) in H.
  apply (classify_cases d) in H. destruct H as [k [Hin Hk]].
  assert (E : classify (a ++ d ++ b) = Severe); [|now rewrite E].
  apply (classify_cases (a ++ d ++ b)). exists k. split; [exact Hin|].
  rewrite !lower_app. now apply occurs_context.
Qed.

Lemma severe_alert_survives_context_witness :
  get_ibm_granite_alerts ("Monitor: " ++ "Risk of severe bleeding" ++ " (rare)")
  = SEVERE_ALERT.
Proof.
  apply (@severe_alert_survives_context "Risk of severe bleeding").
  reflexivity.
Defined.

(** X19. Both keyword rules ignore letter case: the alert of a
    description and the dosage status for a text are those of their
    lower-cased forms. *)
Theorem keyword_rules_ignore_case (d : string) (age : Z) :
  get_ibm_granite_alerts (lower d) = get_ibm_granite_alerts d /\
  dosage_status_of age (lower d) = dosage_status_of age d.
Proof.
  unfold get_ibm_granite_alerts, get_ibm_granite_alerts_with, dosage_status_of.
  now rewrite lower_idem.
Qed.

(* ================================================================= *)
(** ** Order and number of the lookups *)

Lemma length_pairs_from (n k a : nat) :
  (a + k = n)%nat ->
  (2 * length (flat_map (fun i => map (pair i) (seq (i + 1) (n - (i + 1)))) (seq a k))
   = k * (k - 1))%nat.
Proof.
  revert a. induction k as [|k IH]; intros a Hn; [reflexivity|].
  cbn [seq flat_map]. rewrite length_app, length_map, length_seq.
  specialize (IH (S a)). nia.
Qed.

(** X20. Over n identifiers the search carries out at most
    n (n - 1) / 2 table lookups, and exactly that many when it
    returns. *)
Theorem number_of_lookups (df : DataFrame) (found_rxcui : list pyval) :
  (2 * length (evaluated_positions df found_rxcui)
   <= length found_rxcui * (length found_rxcui - 1))%nat /\
  (forall resp, find_interactions df found_rxcui = Ok resp ->
     (2 * length (evaluated_positions df found_rxcui)
      = length found_rxcui * (length found_rxcui - 1))%nat).
Proof.
  assert (Hall : (2 * length (index_pairs (length found_rxcui))
                  = length found_rxcui * (length found_rxcui - 1))%nat)
    by (unfold index_pairs; now apply length_pairs_from).
  split.
  - destruct (evaluated_positions_prefix df found_rxcui) as [rest Hpre].
    rewrite Hpre, length_app in Hall. lia.
  - intros resp Hok. rewrite (evaluated_positions_returned _ _ Hok).
    destruct (Nat.ltb_spec (length found_rxcui) 2) as [Hlt|_]; [|exact Hall].
    cbn [length]. nia.
Qed.

Lemma number_of_lookups_witness :
  (2 * length (evaluated_positions sample_ddi [PStr "161"; PStr "11289"; PStr "1191"])
   = 3 * (3 - 1))%nat /\
  length (evaluated_positions empty_DataFrame [PStr "161"; PStr "11289"; PStr "1191"])
   = 1%nat.
Proof.
  split; [|reflexivity].
  destruct (@number_of_lookups sample_ddi [PStr "161"; PStr "11289"; PStr "1191"])
    as [_ H].
  apply (H {| message := CHECKED;
              interactions :=
                [{| drug1 := PStr "Paracetamol"; drug2 := PStr "Warfarin";
                    rxcui1 := PStr "161"; rxcui2 := PStr "11289";
                    description := PStr "May increase risk of bleeding";
                    alert := SEVERE_ALERT |}] |}).
  reflexivity.
Defined.

Lemma StronglySorted_app {A} (R : A -> A -> Prop) (l1 l2 : list A) :
  StronglySorted R l1 -> StronglySorted R l2 ->
  (forall x y, In x l1 -> In y l2 -> R x y) ->
  StronglySorted R (l1 ++ l2).
Proof.
  intros H1 H2 H. induction H1 as [|x l1 Hs IH Hx]; cbn; [exact H2|].
  constructor.
  - apply IH. intros a b Ha Hb. apply H; [now right | exact Hb].
  - apply Forall_app. split; [exact Hx|].
    apply Forall_forall. intros y Hy. apply H; [now left | exact Hy].
Qed.

Lemma sorted_row (i s len : nat) :
  StronglySorted lex_lt (map (pair i) (seq s len)).
Proof.
  revert s. induction len as [|len IH]; intros s; cbn; constructor; [apply IH|].
  apply Forall_forall. intros [a b] Hin. apply in_map_iff in Hin as [j [Heq Hj]].
  injection Heq as <- <-. apply in_seq in Hj. right. cbn. lia.
Qed.

Lemma sorted_pairs_from (n k a : nat) :
  StronglySorted lex_lt
    (flat_map (fun i => map (pair i) (seq (i + 1) (n - (i + 1)))) (seq a k)).
Proof.
  revert a. induction k as [|k IH]; intros a; cbn [seq flat_map]; [constructor|].
  apply StronglySorted_app; [apply sorted_row | apply IH |].
  intros [i j] [i' j'] Hx Hy.
  apply in_map_iff in Hx as [j0 [Heq _]]. injection Heq as <- <-.
  apply in_flat_map in Hy as [i0 [Hi0 Hin]]. apply in_seq in Hi0.
  apply in_map_iff in Hin as [j1 [Heq _]]. injection Heq as <- <-.
  left. cbn. lia.
Qed.

(** X21. The pairs of positions are visited in strictly increasing
    lexicographic order: first by the position of the first identifier,
    then by that of the second. *)
Theorem pairs_visited_in_lexicographic_order (n : nat) :
  StronglySorted lex_lt (index_pairs n).
Proof. apply sorted_pairs_from. Qed.

(* ================================================================= *)
(** ** The page of the interaction checker *)

Lemma show_cards_entries (es : list Interaction) :
  show_cards (map interaction_json es)
  = map (fun e => st_interaction_card (drug1 e) (drug2 e) (description e)
                                      (PStr (alert e))) es.
Proof. induction es as [|e es IH]; cbn; [reflexivity | now rewrite IH]. Qed.

(** X22. When [check_interactions] raises, the page for a non-empty
    prescription text shows one backend error element and nothing
    else: the element formats the HTTP error of status 404 when no
    drugs were found, and of status 500 for any exception other than
    an HTTP exception. *)
Theorem backend_failure_shows_backend_error
        (ner : string -> list string) (net : network) (df : DataFrame)
        (text : string) (e : exn) :
  text <> "" ->
  check_interactions ner net df text = Raise e ->
  (e = NO_DRUGS ->
   interaction_checker text (serve (check_interactions ner net df text))
     = [st_error_backend (error_status 404)]) /\
  ((forall code detail, e <> HTTPException code detail) ->
   interaction_checker text (serve (check_interactions ner net df text))
     = [st_error_backend (error_status 500)]).
Proof.
  intros Ht H. rewrite H. unfold interaction_checker.
  apply String.eqb_neq in Ht. rewrite Ht. split.
  - intros ->. reflexivity.
  - intros He. destruct e; try reflexivity. now destruct (He status_code detail).
Qed.

Lemma backend_failure_shows_backend_error_witness :
  interaction_checker "Rest and fluids."
    (serve (check_interactions (fun _ => []) sample_net sample_ddi "Rest and fluids."))
    = [st_error_backend (error_status 404)] /\
  interaction_checker "Paracetamol and Warfarin"
    (serve (check_interactions query_hugging_face_ner sample_net empty_DataFrame
                               "Paracetamol and Warfarin"))
    = [st_error_backend (error_status 500)].
Proof.
  split.
  - apply (@backend_failure_shows_backend_error (fun _ => []) sample_net sample_ddi
             "Rest and fluids." NO_DRUGS).
    + discriminate.
    + reflexivity.
    + reflexivity.
  - apply (@backend_failure_shows_backend_error query_hugging_face_ner sample_net
             empty_DataFrame "Paracetamol and Warfarin" (KeyError "RxCUI_1")).
    + discriminate.
    + reflexivity.
    + discriminate.
Defined.

(** X23. When [check_interactions] returns, the page for a non-empty
    prescription text shows the backend error element of status 500 if
    an entry holds a missing cell; otherwise the no-interaction success
    element if the interaction list is empty, whatever the message
    says, and else the heading followed by one card per entry, in
    order, showing the entry's two drug names, description and
    alert. *)
Theorem returned_interactions_page
        (ner : string -> list string) (net : network) (df : DataFrame)
        (text : string) (resp : InteractionsResponse) :
  text <> "" ->
  check_interactions ner net df text = Ok resp ->
  interaction_checker text (serve (check_interactions ner net df text))
  = if existsb has_missing_cell (interactions resp)
    then [st_error_backend (error_status 500)]
    else match interactions resp with
         | [] => [st_success NO_INTERACTIONS]
         | es => st_markdown INTERACTIONS_FOUND
                 :: map (fun e => st_interaction_card (drug1 e) (drug2 e)
                                                      (description e)
                                                      (PStr (alert e))) es
         end.
Proof.
  intros Ht H. rewrite H. unfold interaction_checker, serve, interactions_json.
  apply String.eqb_neq in Ht. rewrite Ht.
  destruct (existsb has_missing_cell (interactions resp)); [reflexivity|].
  cbn [py_getitem assoc String.eqb].
  cbn -[show_cards interaction_json]. destruct (interactions resp) as [|e es]; [reflexivity|].
  cbn [map truthy negb py_iter]. rewrite <- show_cards_entries. reflexivity.
Qed.

Lemma returned_interactions_page_witness :
  interaction_checker "Paracetamol only"
    (serve (check_interactions (fun _ => ["Paracetamol"]) sample_net sample_ddi
                               "Paracetamol only"))
  = [st_success NO_INTERACTIONS] /\
  interaction_checker "Paracetamol and Warfarin"
    (serve (check_interactions query_hugging_face_ner sample_net sample_ddi
                               "Paracetamol and Warfarin"))
  = [st_markdown INTERACTIONS_FOUND;
     st_interaction_card (PStr "Paracetamol") (PStr "Warfarin")
                         (PStr "May increase risk of bleeding") (PStr SEVERE_ALERT)] /\
  interaction_checker "Paracetamol and Warfarin"
    (serve (check_interactions query_hugging_face_ner sample_net unnamed_ddi
                               "Paracetamol and Warfarin"))
  = [st_error_backend (error_status 500)].
Proof.
  split; [|split].
  - apply (@returned_interactions_page (fun _ => ["Paracetamol"]) sample_net sample_ddi
             "Paracetamol only" {| message := NOT_ENOUGH; interactions := [] |}).
    + discriminate.
    + reflexivity.
  - apply (@returned_interactions_page query_hugging_face_ner sample_net sample_ddi
             "Paracetamol and Warfarin"
             {| message := CHECKED;
                interactions :=
                  [{| drug1 := PStr "Paracetamol"; drug2 := PStr "Warfarin";
                      rxcui1 := PStr "161"; rxcui2 := PStr "11289";
                      description := PStr "May increase risk of bleeding";
                      alert := SEVERE_ALERT |}] |}).
    + discriminate.
    + reflexivity.
  - apply (@returned_interactions_page query_hugging_face_ner sample_net unnamed_ddi
             "Paracetamol and Warfarin"
             {| message := CHECKED;
                interactions :=
                  [{| drug1 := PNone; drug2 := PStr "Warfarin";
                      rxcui1 := PStr "161"; rxcui2 := PStr "11289";
                      description := PStr "May increase risk of bleeding";
                      alert := SEVERE_ALERT |}] |}).
    + discriminate.
    + reflexivity.
Defined.

(* ================================================================= *)
(** ** What the endpoints raise *)

Lemma row_get_errors (cols : list string) (row : list pyval) (c : string) :
  (exists v, row_get cols row c = Ok v) \/ row_get cols row c = Raise (KeyError c).
Proof. unfold row_get. destruct (index_of c cols); [left; now eexists | now right]. Qed.

Lemma interaction_of_row_errors (cols : list string) (row : list pyval) (e : exn) :
  interaction_of_row cols row = Raise e -> search_error e.
Proof.
  unfold interaction_of_row, search_error, DDI_COLUMNS. intros H.
  assert (Hkey : forall c, In c DDI_COLUMNS ->
                           Raise (KeyError c) = @Raise Interaction e ->
                           e = AttributeError \/
                           exists c', In c' DDI_COLUMNS /\ e = KeyError c').
  { intros c Hc Hr. injection Hr as <-. right. now exists c. }
  destruct (row_get_errors cols row "Interaction Description") as [[d Hd] | E];
    rewrite ?Hd, ?E in H; cbn [bind] in H;
    [|eapply Hkey; [|exact H]; cbn; tauto].
  destruct (call_alerts d) as [a|ea] eqn:Ea; cbn [bind] in H.
  2:{ destruct d; cbn in Ea; try discriminate.
      all: injection Ea as <-; injection H as <-; now left. }
  destruct (row_get_errors cols row "Drug 1") as [[d1 H1] | E];
    rewrite ?H1, ?E in H; cbn [bind] in H;
    [|eapply Hkey; [|exact H]; cbn; tauto].
  destruct (row_get_errors cols row "Drug 2") as [[d2 H2] | E];
    rewrite ?H2, ?E in H; cbn [bind] in H;
    [|eapply Hkey; [|exact H]; cbn; tauto].
  destruct (row_get_errors cols row "RxCUI_1") as [[r1 H3] | E];
    rewrite ?H3, ?E in H; cbn [bind] in H;
    [|eapply Hkey; [|exact H]; cbn; tauto].
  destruct (row_get_errors cols row "RxCUI_2") as [[r2 H4] | E];
    rewrite ?H4, ?E in H; cbn [bind] in H;
    [|eapply Hkey; [|exact H]; cbn; tauto].
  discriminate.
Qed.

Lemma mapM_raise_source {A B} (f : A -> result B) (xs : list A) (e : exn) :
  mapM f xs = Raise e -> exists x, In x xs /\ f x = Raise e.
Proof.
  induction xs as [|x xs IH]; cbn [mapM]; [discriminate|].
  destruct (f x) as [y|e0] eqn:Ex; cbn [bind].
  - destruct (mapM f xs) as [ys|e1]; cbn [bind]; [discriminate|].
    intros H. injection H as ->. destruct IH as [x' [Hin Hx']]; [reflexivity|].
    exists x'. split; [now right | exact Hx'].
  - intros H. injection H as ->. exists x. split; [now left | exact Ex].
Qed.

Lemma pair_interactions_errors (df : DataFrame) (p : pyval * pyval) (e : exn) :
  pair_interactions df p = Raise e -> search_error e.
Proof.
  unfold pair_interactions. rewrite pair_lookup_rows.
  destruct (index_of "RxCUI_1" (columns df));
    [|intros H; injection H as <-; right; eexists; split; [|reflexivity]; cbn; tauto].
  destruct (index_of "RxCUI_2" (columns df));
    [|intros H; injection H as <-; right; eexists; split; [|reflexivity]; cbn; tauto].
  cbn [bind columns rows]. intros H.
  apply mapM_raise_source in H as [row [_ Hrow]].
  now apply interaction_of_row_errors in Hrow.
Qed.

Lemma find_interactions_errors (df : DataFrame) (found : list pyval) (e : exn) :
  find_interactions df found = Raise e -> search_error e.
Proof.
  unfold find_interactions. destruct (length found <? 2)%nat; [discriminate|].
  destruct (mapM (pair_interactions df) (queried_pairs found)) as [per|e0] eqn:E;
    cbn [bind]; [discriminate|].
  intros H. injection H as ->.
  apply mapM_raise_source in E as [p [_ Hp]]. now apply pair_interactions_errors in Hp.
Qed.

Lemma rxcui_map_from_errors (net : network) (l : list string)
      (acc : list (string * pyval)) (e : exn) :
  rxcui_map_from net acc l = Raise e -> lookup_error e.
Proof.
  revert acc. induction l as [|d l IH]; intros acc; cbn [rxcui_map_from]; [discriminate|].
  pose proof (get_rxcui_errors net d) as Hd.
  destruct (get_rxcui net d) as [v|e0]; cbn [bind].
  - apply IH.
  - intros H. injection H as <-. exact Hd.
Qed.

Lemma dosage_loop_errors (net : network) (age : Z) (text : string)
      (l : list string) (acc : list DosageEntry) (e : exn) :
  dosage_loop net age text acc l = Raise e -> lookup_error e.
Proof.
  revert acc. induction l as [|d l IH]; intros acc; cbn [dosage_loop]; [discriminate|].
  pose proof (get_rxcui_errors net d) as Hd.
  destruct (get_rxcui net d) as [v|e0]; cbn [bind];
    [|intros H; injection H as <-; exact Hd].
  destruct (truthy v); [|apply IH].
  pose proof (get_dosage_forms_errors net v) as Hf.
  destruct (get_dosage_forms net v) as [fs|e1]; cbn [bind];
    [|intros H; injection H as <-; exact Hf].
  pose proof (get_alternatives_errors net v) as Ha.
  destruct (get_alternatives net v) as [al|e2]; cbn [bind];
    [|intros H; injection H as <-; exact Ha].
  apply IH.
Qed.

Lemma lookup_error_not_404 (e : exn) : lookup_error e -> e <> NO_DRUGS.
Proof. intros H ->. exact H. Qed.

Lemma search_error_not_404 (e : exn) : search_error e -> e <> NO_DRUGS.
Proof. intros [-> | [c [_ ->]]]; discriminate. Qed.

(** X24. What the endpoints raise when every resolved identifier is a
    scalar: [check_interactions] raises the 404,
    an exception from reading a lookup body, or an exception of the
    table search; [dosage_alternatives] raises the 404 or an exception
    from reading a lookup body.  Each raises the 404 exactly when the
    extractor returned no mention. *)
Theorem endpoint_exceptions
        (ner : string -> list string) (net : network) (df : DataFrame)
        (text : string) (age : Z) :
  (forall d v, In d (ner text) -> get_rxcui net d = Ok v ->
               v = PNone \/ is_scalar v = true) ->
  (forall e, check_interactions ner net df text = Raise e ->
             e = NO_DRUGS \/ lookup_error e \/ search_error e) /\
  (forall e, dosage_alternatives ner net text age = Raise e ->
             e = NO_DRUGS \/ lookup_error e) /\
  (check_interactions ner net df text = Raise NO_DRUGS <-> ner text = []) /\
  (dosage_alternatives ner net text age = Raise NO_DRUGS <-> ner text = []).
Proof.
  intros _.
  assert (Hc : forall e, check_interactions ner net df text = Raise e ->
                         (ner text = [] /\ e = NO_DRUGS) \/
                         (ner text <> [] /\ (lookup_error e \/ search_error e))).
  { intros e. unfold check_interactions. destruct (ner text) as [|d ds] eqn:E.
    - intros H. injection H as <-. now left.
    - destruct (rxcui_map_from net [] (d :: ds)) as [m|e0] eqn:Em; cbn [bind].
      + intros H. apply find_interactions_errors in H. right. split; [discriminate|tauto].
      + intros H. injection H as ->. apply rxcui_map_from_errors in Em.
        right. split; [discriminate|tauto]. }
  assert (Hd : forall e, dosage_alternatives ner net text age = Raise e ->
                         (ner text = [] /\ e = NO_DRUGS) \/
                         (ner text <> [] /\ lookup_error e)).
  { intros e. unfold dosage_alternatives. destruct (ner text) as [|d ds] eqn:E.
    - intros H. injection H as <-. now left.
    - destruct (dosage_loop net age text [] (d :: ds)) as [res|e0] eqn:El; cbn [bind];
        [discriminate|].
      intros H. injection H as ->. apply dosage_loop_errors in El.
      right. split; [discriminate | exact El]. }
  split; [intros e H; destruct (Hc e H) as [[_ ->] | [_ H']]; tauto|].
  split; [intros e H; destruct (Hd e H) as [[_ ->] | [_ H']]; tauto|].
  split; split.
  - intros H. destruct (Hc _ H) as [[E _] | [_ [H' | H']]]; [exact E | |].
    + now apply lookup_error_not_404 in H'.
    + now apply search_error_not_404 in H'.
  - intros E. unfold check_interactions. now rewrite E.
  - intros H. destruct (Hd _ H) as [[E _] | [_ H']]; [exact E|].
    now apply lookup_error_not_404 in H'.
  - intros E. unfold dosage_alternatives. now rewrite E.
Qed.

Lemma endpoint_exceptions_witness :
  (check_interactions query_hugging_face_ner sample_net empty_DataFrame
                      "Paracetamol and Warfarin" = Raise (KeyError "RxCUI_1") /\
   (KeyError "RxCUI_1" = NO_DRUGS \/ lookup_error (KeyError "RxCUI_1") \/
    search_error (KeyError "RxCUI_1"))) /\
  (check_interactions query_hugging_face_ner sample_net sample_ddi
                      "Paracetamol and Warfarin" = Raise NO_DRUGS
   <-> query_hugging_face_ner "Paracetamol and Warfarin" = []).
Proof.
  destruct (@endpoint_exceptions query_hugging_face_ner sample_net empty_DataFrame
              "Paracetamol and Warfarin" 40) as (H1 & _ & _ & _).
  { intros d v [<- | [<- | []]] Hv; injection Hv as <-; now right. }
  destruct (@endpoint_exceptions query_hugging_face_ner sample_net sample_ddi
              "Paracetamol and Warfarin" 40) as (_ & _ & H3 & _).
  { intros d v [<- | [<- | []]] Hv; injection Hv as <-; now right. }
  split; [|exact H3].
  split; [reflexivity|].
  exact (H1 (KeyError "RxCUI_1") eq_refl).
Defined.

Lemma dosage_loop_text (net : network) (age : Z) (t1 t2 : string)
      (l : list string) (acc : list DosageEntry) :
  dosage_status_of age t1 = dosage_status_of age t2 ->
  dosage_loop net age t1 acc l = dosage_loop net age t2 acc l.
Proof.
  intros Hs. revert acc. induction l as [|d l IH]; intros acc; cbn [dosage_loop];
    [reflexivity|].
  destruct (get_rxcui net d) as [v|]; cbn [bind]; [|reflexivity].
  destruct (truthy v); [|apply IH].
  destruct (get_dosage_forms net v) as [fs|]; cbn [bind]; [|reflexivity].
  destruct (get_alternatives net v) as [al|]; cbn [bind]; [|reflexivity].
  rewrite Hs. apply IH.
Qed.

(** X25. With the extractor as it stands, the answer of
    [check_interactions] does not depend on the prescription text, and
    that of [dosage_alternatives] depends on it only through the
    dosage status. *)
Theorem stub_extractor_ignores_text (net : network) (df : DataFrame)
        (t1 t2 : string) (age : Z) :
  dosage_status_of age t1 = dosage_status_of age t2 ->
  check_interactions query_hugging_face_ner net df t1
    = check_interactions query_hugging_face_ner net df t2 /\
  dosage_alternatives query_hugging_face_ner net t1 age
    = dosage_alternatives query_hugging_face_ner net t2 age.
Proof.
  intros Hs. split; [reflexivity|].
  unfold dosage_alternatives, query_hugging_face_ner.
  now rewrite (@dosage_loop_text net age t1 t2 _ _ Hs).
Qed.

Lemma stub_extractor_ignores_text_witness :
  check_interactions query_hugging_face_ner sample_net sample_ddi "Aspirin 100mg"
    = check_interactions query_hugging_face_ner sample_net sample_ddi "" /\
  dosage_alternatives query_hugging_face_ner sample_net "Aspirin 100mg" 40
    = dosage_alternatives query_hugging_face_ner sample_net "" 40.
Proof.
  apply (@stub_extractor_ignores_text sample_net sample_ddi "Aspirin 100mg" "" 40).
  reflexivity.
Defined.
